(** * Local ePBS header construction and the HTTP-REST server constructor

    A shallow embedding of two functions of the beacon node:

    - [validator.GetLocalHeader] (package validator), the RPC that builds
      the local [ExecutionPayloadHeaderEPBS] for a slot and a proposer;
    - [httprest.New] (package httprest), the constructor of the HTTP server.

    Go values are modelled as the code has them: a [(value, error)] return
    is a pair whose second component is [None] for a nil error, unsigned
    64-bit fields are [N], byte slices are [list byte], and the calls
    [GetLocalHeader] makes on its collaborators are recorded in a trace. *)

From Stdlib Require Import List String Ascii NArith ZArith Bool Lia.
From Stdlib Require Import Strings.Byte.
Import ListNotations.

Local Open Scope list_scope.

(** ** gRPC status codes and Go errors *)

Module codes.

(** [google.golang.org/grpc/codes.Code]. *)
Inductive Code : Type :=
| OK | Canceled | Unknown | InvalidArgument | DeadlineExceeded | NotFound
| AlreadyExists | PermissionDenied | ResourceExhausted | FailedPrecondition
| Aborted | OutOfRange | Unimplemented | Internal | Unavailable | DataLoss
| Unauthenticated.

(** [Code.String()]. *)
Definition String (c : Code) : string :=
  match c with
  | OK => "OK" | Canceled => "Canceled" | Unknown => "Unknown"
  | InvalidArgument => "InvalidArgument"
  | DeadlineExceeded => "DeadlineExceeded" | NotFound => "NotFound"
  | AlreadyExists => "AlreadyExists"
  | PermissionDenied => "PermissionDenied"
  | ResourceExhausted => "ResourceExhausted"
  | FailedPrecondition => "FailedPrecondition" | Aborted => "Aborted"
  | OutOfRange => "OutOfRange" | Unimplemented => "Unimplemented"
  | Internal => "Internal" | Unavailable => "Unavailable"
  | DataLoss => "DataLoss" | Unauthenticated => "Unauthenticated"
  end%string.

End codes.

(** A Go [error] value that is not nil.  The nil error is [None] of
    [option error]. *)
Inductive error : Type :=
| errorString (msg : string)                      (* errors.New, fmt.Errorf *)
| statusError (c : codes.Code) (msg : string).    (* a gRPC status error *)

(** [err.Error()]. *)
Definition Error (e : error) : string :=
  match e with
  | errorString msg => msg
  | statusError c msg =>
      ("rpc error: code = " ++ codes.String c ++ " desc = " ++ msg)%string
  end.

(** [err != nil]. *)
Definition notNil (err : option error) : bool :=
  match err with
  | Some _ => true
  | None => false
  end.

(** What the verb [%v] prints for an error value. *)
Definition fmt_v (err : option error) : string :=
  match err with
  | Some e => Error e
  | None => "<nil>"
  end.

Module status.

(** [status.Error(c, msg)]: nil for [codes.OK], a status error otherwise. *)
Definition Error (c : codes.Code) (msg : string) : option error :=
  match c with
  | codes.OK => None
  | _ => Some (statusError c msg)
  end.

(** [status.Errorf(c, format, a...)], with the format already expanded. *)
Definition Errorf (c : codes.Code) (msg : string) : option error :=
  Error c msg.

(** [status.Code(err)]. *)
Definition Code (err : option error) : codes.Code :=
  match err with
  | None => codes.OK
  | Some (statusError c _) => c
  | Some (errorString _) => codes.Unknown
  end.

End status.

Module errors.
(** [errors.New(msg)]. *)
Definition New (msg : string) : option error := Some (errorString msg).
End errors.

(** ** Consensus primitives and configuration *)

Definition bytes : Type := list byte.

Module primitives.
Definition Slot : Type := N.
Definition Epoch : Type := N.
Definition ValidatorIndex : Type := N.
End primitives.

Module params.

(** The two fields of [params.BeaconConfig()] that [GetLocalHeader] and
    [slots.ToEpoch] read.  [SlotsPerEpoch] is a protocol constant that is
    never zero, hence [positive]. *)
Record BeaconChainConfig : Type := {
  SlotsPerEpoch : positive;
  EPBSForkEpoch : primitives.Epoch
}.

End params.

Module slots.

(** Modelled from the spec: [slots.ToEpoch] is not among the sources; the
    spec gives [epoch = slot / SLOTS_PER_EPOCH], integer division by the
    protocol constant. *)
Definition ToEpoch (cfg : params.BeaconChainConfig) (slot : primitives.Slot)
  : primitives.Epoch :=
  (slot / Npos (params.SlotsPerEpoch cfg))%N.

End slots.

(** ** Hash tree root of the KZG commitment list *)

Module ssz.

(** The parameters of the merkleization, fixed by the protocol.  The hash
    is opaque: [hash_elem] is the element-hashing rule that turns one
    commitment into a leaf, [hash_pair] hashes two 32-byte chunks into one.
    [MaxBlobsPerBlock] is the capacity of the list, [errSerialization] the
    error of an oversized list. *)
Record Merkleizer : Type := {
  hash_elem : bytes -> bytes;
  hash_pair : bytes -> bytes -> bytes;
  MaxBlobsPerBlock : N;
  errSerialization : error
}.

Definition zero_leaf : bytes := repeat x00 32.

Definition byte_of_N (n : N) : byte :=
  match Byte.of_N (n mod 256) with
  | Some b => b
  | None => x00
  end.

(** [n] bytes of [v], least significant first. *)
Fixpoint little_endian (n : nat) (v : N) : bytes :=
  match n with
  | O => []
  | S k => byte_of_N v :: little_endian k (v / 256)
  end.

(** The length of the list as a 32-byte chunk: a little-endian uint64
    followed by zeros. *)
Definition length_chunk (len : nat) : bytes :=
  little_endian 8 (N.of_nat len mod 2 ^ 64) ++ repeat x00 24.

Section Merkleization.

Variable m : Merkleizer.

(** [ceil(log2(MAX))]. *)
Definition depth : nat := N.to_nat (N.log2_up (MaxBlobsPerBlock m)).

(** The leaves of the tree: one per commitment, then zero leaves up to
    the width of a tree of that depth. *)
Definition leaves (commitments : list bytes) : list bytes :=
  map (hash_elem m) commitments
    ++ repeat zero_leaf (2 ^ depth - List.length commitments).

(** One level of pairwise hashing. *)
Fixpoint merkle_layer (l : list bytes) : list bytes :=
  match l with
  | a :: b :: t => hash_pair m a b :: merkle_layer t
  | [a] => [hash_pair m a zero_leaf]
  | [] => []
  end.

Definition merkle_root (l : list bytes) : bytes :=
  hd zero_leaf (Nat.iter depth merkle_layer l).

Definition MixInLength (root : bytes) (len : nat) : bytes :=
  hash_pair m root (length_chunk len).

(** Modelled from the spec: [ssz.KzgCommitmentsRoot] is not among the
    sources.  The spec (CommitmentRootComputer) gives: fail with a
    serialization error when there are more than MAX commitments; hash
    every commitment to a leaf; fill the leaves up with zero leaves;
    build the binary tree of depth ceil(log2(MAX)) by pairwise hashing;
    mix the length of the list into the root.  The Go result is the pair
    of a [[32]byte] and an error, the array being zero on failure. *)
Definition KzgCommitmentsRoot (commitments : list bytes)
  : bytes * option error :=
  if (MaxBlobsPerBlock m <? N.of_nat (List.length commitments))%N
  then (repeat x00 32, Some (errSerialization m))
  else (MixInLength (merkle_root (leaves commitments))
                    (List.length commitments), None).

End Merkleization.

End ssz.

(** ** Messages of the RPC *)

Module ethpb.

(** [ethpb.HeaderRequest]. *)
Record HeaderRequest : Type := {
  Slot : primitives.Slot;
  ProposerIndex : primitives.ValidatorIndex
}.

End ethpb.

Module interfaces.

(** Modelled from the spec: the execution data of a local payload, read in
    the source through the methods [ParentHash()], [BlockHash()] and
    [GasLimit()]; the spec lists exactly these three fields. *)
Record ExecutionData : Type := {
  ParentHash : bytes;
  BlockHash : bytes;
  GasLimit : N
}.

End interfaces.

Module enginev1.

(** The blobs bundle of a payload; only [KzgCommitments] is read. *)
Record BlobsBundle : Type := {
  KzgCommitments : list bytes
}.

(** [enginev1.ExecutionPayloadHeaderEPBS], the fields the source sets. *)
Record ExecutionPayloadHeaderEPBS : Type := {
  ParentBlockHash : bytes;
  ParentBlockRoot : bytes;
  BlockHash : bytes;
  GasLimit : N;
  BuilderIndex : primitives.ValidatorIndex;
  Slot : primitives.Slot;
  Value : N;
  BlobKzgCommitmentsRoot : bytes
}.

End enginev1.

Module blocks.

(** Modelled from the spec: the local payload has execution data and an
    ordered sequence of commitments; the source reads them as
    [localPayload.ExecutionData] and
    [localPayload.BlobsBundle.KzgCommitments]. *)
Record GetPayloadResponse : Type := {
  ExecutionData : interfaces.ExecutionData;
  BlobsBundle : enginev1.BlobsBundle
}.

End blocks.

(** ** The validator RPC server *)

Module validator.

(** What the RPC returns: the header pointer and the error, either of
    which can be nil. *)
Definition Response : Type :=
  (option enginev1.ExecutionPayloadHeaderEPBS * option error)%type.

Section Server.

(** The beacon state is an opaque handle, passed from the resolver to
    the payload producer. *)
Variable BeaconState : Type.

(** The collaborators of [GetLocalHeader]: the sync checker and three
    methods of the server that are defined in other files.  Each is
    given by what it returns, in Go's [(values, error)] form; a nil
    error of the payload producer comes with a payload. *)
Record Server : Type := {
  Syncing : bool;
  optimisticStatus : option error;
  getParentState :
    primitives.Slot -> BeaconState * bytes * option error;
  getLocalPayloadFromEngine :
    BeaconState -> bytes -> primitives.Slot -> primitives.ValidatorIndex ->
    blocks.GetPayloadResponse * option error
}.

(** A call on a collaborator, with its arguments. *)
Inductive Call : Type :=
| CallSyncing
| CallOptimisticStatus
| CallGetParentState (slot : primitives.Slot)
| CallGetLocalPayloadFromEngine
    (st : BeaconState) (parentRoot : bytes)
    (slot : primitives.Slot) (proposerIndex : primitives.ValidatorIndex).

(** *** A function body: the calls made so far, and either the values of
    a [return] statement or the value to go on with. *)
Inductive Flow (A : Type) : Type :=
| Returned (r : Response)
| Continue (a : A).
Arguments Returned {A} r.
Arguments Continue {A} a.

Definition Exec (A : Type) : Type := (list Call * Flow A)%type.

Definition bind {A B : Type} (m : Exec A) (k : A -> Exec B) : Exec B :=
  match m with
  | (t, Returned r) => (t, Returned r)
  | (t, Continue a) => let (t', f) := k a in (t ++ t', f)
  end.

(** A [return] statement. *)
Definition Return {A : Type} (r : Response) : Exec A := ([], Returned r).

(** A call on a collaborator that yields [a]. *)
Definition call {A : Type} (c : Call) (a : A) : Exec A :=
  ([c], Continue a).

(** A body that ends in a [return] on every path. *)
Definition run (m : Exec Empty_set) : list Call * Response :=
  match m with
  | (t, Returned r) => (t, r)
  | (_, Continue e) => match e with end
  end.

Notation "x <- m ;; k" := (bind m (fun x => k))
  (at level 61, m at next level, right associativity).
Notation "' pat <- m ;; k" :=
  (bind m (fun x => match x with pat => k end))
  (at level 61, pat pattern, m at next level, right associativity).

(** The process-wide configuration and the merkleization parameters. *)
Variable cfg : params.BeaconChainConfig.
Variable mk : ssz.Merkleizer.

(** [GetLocalHeader] returns the local header for a given slot and
    proposer index.  The tracing span of the source has no effect on
    the result and is left out. *)
Definition GetLocalHeader (vs : Server) (req : ethpb.HeaderRequest)
  : Exec Empty_set :=
  syncing <- call CallSyncing (Syncing vs) ;;
  if syncing : bool then
    Return (None, status.Error codes.FailedPrecondition
                    "Syncing to latest head, not ready to respond")
  else
  err <- call CallOptimisticStatus (optimisticStatus vs) ;;
  if notNil err then
    Return (None, status.Errorf codes.FailedPrecondition
                    ("Validator is not ready to propose: " ++ fmt_v err))
  else
  let slot := ethpb.Slot req in
  let epoch := slots.ToEpoch cfg slot in
  if (epoch <? params.EPBSForkEpoch cfg)%N then
    Return (None, status.Errorf codes.FailedPrecondition
                    "EPBS fork has not occurred yet")
  else
  '(st, parentRoot, err) <-
     call (CallGetParentState slot) (getParentState vs slot) ;;
  if notNil err then
    Return (None, err)
  else
  let proposerIndex := ethpb.ProposerIndex req in
  '(localPayload, err) <-
     call (CallGetLocalPayloadFromEngine st parentRoot slot proposerIndex)
          (getLocalPayloadFromEngine vs st parentRoot slot proposerIndex) ;;
  if notNil err then
    Return (None, status.Errorf codes.Internal
                    ("Could not get local payload: " ++ fmt_v err))
  else
  let (kzgRoot, err) :=
    ssz.KzgCommitmentsRoot mk
      (enginev1.KzgCommitments (blocks.BlobsBundle localPayload)) in
  if notNil err then
    Return (None, status.Errorf codes.Internal
                    ("Could not get kzg commitments root: " ++ fmt_v err))
  else
  Return
    (Some {|
       enginev1.ParentBlockHash :=
         interfaces.ParentHash (blocks.ExecutionData localPayload);
       enginev1.ParentBlockRoot := parentRoot;
       enginev1.BlockHash :=
         interfaces.BlockHash (blocks.ExecutionData localPayload);
       enginev1.GasLimit :=
         interfaces.GasLimit (blocks.ExecutionData localPayload);
       enginev1.BuilderIndex := proposerIndex;
       enginev1.Slot := slot;
       enginev1.Value := 0%N;
       enginev1.BlobKzgCommitmentsRoot := kzgRoot
     |}, None).

(** The values [GetLocalHeader] returns, and the calls it made. *)
Definition response (vs : Server) (req : ethpb.HeaderRequest) : Response :=
  snd (run (GetLocalHeader vs req)).

Definition calls (vs : Server) (req : ethpb.HeaderRequest) : list Call :=
  fst (run (GetLocalHeader vs req)).

End Server.

End validator.

Arguments validator.Returned {A} r.
Arguments validator.Continue {A} a.
Arguments validator.Syncing {BeaconState} s.
Arguments validator.optimisticStatus {BeaconState} s.
Arguments validator.getParentState {BeaconState} s slot.
Arguments validator.getLocalPayloadFromEngine
  {BeaconState} s st parentRoot slot proposerIndex.
Arguments validator.CallSyncing {BeaconState}.
Arguments validator.CallOptimisticStatus {BeaconState}.
Arguments validator.CallGetParentState {BeaconState} slot.
Arguments validator.CallGetLocalPayloadFromEngine
  {BeaconState} st parentRoot slot proposerIndex.
Arguments validator.GetLocalHeader {BeaconState} cfg mk vs req.
Arguments validator.run {BeaconState} m.
Arguments validator.response {BeaconState} cfg mk vs req.
Arguments validator.calls {BeaconState} cfg mk vs req.

(** ** The HTTP-REST server *)

Module time.
(** [time.Duration] counts nanoseconds. *)
Definition Duration : Type := Z.
Definition Second : Duration := 1000000000%Z.
End time.

Module http.

Section Server.
(** The type of the handlers a server can dispatch to. *)
Variable T : Type.

(** [http.Server], the fields [New] sets.  [Handler] is nil or the
    handler the server dispatches to. *)
Record Server : Type := {
  Addr : string;
  Handler : option T;
  ReadHeaderTimeout : time.Duration
}.
End Server.

Arguments Addr {T} s.
Arguments Handler {T} s.
Arguments ReadHeaderTimeout {T} s.

End http.

Module httprest.

Section Service.

(** The router, the handler wrapper, the context and the cancel function
    are opaque: [New] stores or compares them and nothing more. *)
Variables Router httpHandler Context CancelFunc : Type.

(** Config parameters for setting up the http-rest service. *)
Record config : Type := {
  httpAddr : string;
  allowedOrigins : list string;
  handler : option httpHandler;
  router : option Router;
  timeout : time.Duration
}.

(** [&config{}]: every field has its zero value. *)
Definition zero_config : config := {|
  httpAddr := EmptyString;
  allowedOrigins := [];
  handler := None;
  router := None;
  timeout := 0%Z
|}.

(** Server serves HTTP traffic.  [cfg] is allocated by [New]; options
    update its fields. *)
Record Server : Type := {
  cfg : config;
  server : option (http.Server Router);
  cancel : option CancelFunc;
  ctx : Context;
  startFailure : option error
}.

Definition set_server (g : Server) (s : http.Server Router) : Server := {|
  cfg := cfg g;
  server := Some s;
  cancel := cancel g;
  ctx := ctx g;
  startFailure := startFailure g
|}.

(** An option is a function on the server under construction that may
    update it and returns an error or nil. *)
Definition Option : Type := Server -> Server * option error.

(** The loop of [New]: the options run in order, each on the server the
    previous ones left, and the first error stops the loop. *)
Fixpoint applyOptions (opts : list Option) (g : Server)
  : Server * option error :=
  match opts with
  | [] => (g, None)
  | opt :: rest =>
      let (g', err) := opt g in
      if notNil err then (g', err) else applyOptions rest g'
  end.

(** [&Server{ctx: ctx, cfg: &config{}}]. *)
Definition empty_server (ctx0 : Context) : Server := {|
  cfg := zero_config;
  server := None;
  cancel := None;
  ctx := ctx0;
  startFailure := None
|}.

(** New returns a new instance of the Server. *)
Definition New (ctx0 : Context) (opts : list Option)
  : option Server * option error :=
  let g := empty_server ctx0 in
  let (g, err) := applyOptions opts g in
  if notNil err then (None, err)
  else
    match router (cfg g) with
    | None => (None, errors.New "router option not configured")
    | Some _ =>
        let g := set_server g {|
                   http.Addr := httpAddr (cfg g);
                   http.Handler := router (cfg g);
                   http.ReadHeaderTimeout := time.Second
                 |} in
        (Some g, None)
    end.

End Service.

End httprest.

Arguments httprest.httpAddr {Router httpHandler} c.
Arguments httprest.allowedOrigins {Router httpHandler} c.
Arguments httprest.handler {Router httpHandler} c.
Arguments httprest.router {Router httpHandler} c.
Arguments httprest.timeout {Router httpHandler} c.
Arguments httprest.zero_config {Router httpHandler}.
Arguments httprest.cfg {Router httpHandler Context CancelFunc} s.
Arguments httprest.server {Router httpHandler Context CancelFunc} s.
Arguments httprest.cancel {Router httpHandler Context CancelFunc} s.
Arguments httprest.ctx {Router httpHandler Context CancelFunc} s.
Arguments httprest.startFailure {Router httpHandler Context CancelFunc} s.
Arguments httprest.set_server {Router httpHandler Context CancelFunc} g s.
Arguments httprest.empty_server {Router httpHandler Context CancelFunc} ctx0.
Arguments httprest.applyOptions {Router httpHandler Context CancelFunc} opts g.
Arguments httprest.New {Router httpHandler Context CancelFunc} ctx0 opts.

(** ** The errors of the pipeline, by the names the specification uses *)

Module taxonomy.

(** NotReady, the node is syncing. *)
Definition NotReadySyncing : error :=
  statusError codes.FailedPrecondition
    "Syncing to latest head, not ready to respond".

(** NotReady, the optimistic check failed with [cause]. *)
Definition NotReadyOptimistic (cause : error) : error :=
  statusError codes.FailedPrecondition
    ("Validator is not ready to propose: " ++ Error cause).

(** ForkNotActive. *)
Definition ForkNotActive : error :=
  statusError codes.FailedPrecondition "EPBS fork has not occurred yet".

(** Internal failure of the payload producer, wrapping [cause]. *)
Definition InternalProduction (cause : error) : error :=
  statusError codes.Internal
    ("Could not get local payload: " ++ Error cause).

(** Internal failure of the commitment root, wrapping [cause]. *)
Definition InternalSerialization (cause : error) : error :=
  statusError codes.Internal
    ("Could not get kzg commitments root: " ++ Error cause).

End taxonomy.

(** ** Observations on a trace of calls *)

Module trace.

Section Calls.
Context {BeaconState : Type}.

Definition is_resolver (c : validator.Call BeaconState) : bool :=
  match c with
  | validator.CallGetParentState _ => true
  | _ => false
  end.

Definition is_producer (c : validator.Call BeaconState) : bool :=
  match c with
  | validator.CallGetLocalPayloadFromEngine _ _ _ _ => true
  | _ => false
  end.

(** The parent-state resolver was invoked. *)
Definition resolver_invoked (t : list (validator.Call BeaconState)) : bool :=
  existsb is_resolver t.

(** The local payload producer was invoked. *)
Definition producer_invoked (t : list (validator.Call BeaconState)) : bool :=
  existsb is_producer t.

End Calls.

End trace.

(** The three checks of the gate all pass. *)
Definition gate_open {BeaconState : Type} (cfg : params.BeaconChainConfig)
  (vs : validator.Server BeaconState) (req : ethpb.HeaderRequest) : Prop :=
  validator.Syncing vs = false
  /\ validator.optimisticStatus vs = None
  /\ (params.EPBSForkEpoch cfg <= slots.ToEpoch cfg (ethpb.Slot req))%N.

(** ** Concrete collaborators, used to run the model *)

Module fixtures.

(** A stand-in for the protocol hash: 32 bytes folded from the input. *)
Definition fold_hash (d : bytes) : bytes :=
  ssz.little_endian 32
    (fold_left (fun acc b => (acc * 257 + Byte.to_N b + 1) mod 2 ^ 256)%N
               d 7%N).

Definition oversized : error := errorString "too many commitments".

Definition mk : ssz.Merkleizer := {|
  ssz.hash_elem := fold_hash;
  ssz.hash_pair := fun a b => fold_hash (a ++ b);
  ssz.MaxBlobsPerBlock := 6%N;
  ssz.errSerialization := oversized
|}.

(** Activation at epoch 100, 32 slots per epoch. *)
Definition cfg : params.BeaconChainConfig := {|
  params.SlotsPerEpoch := 32;
  params.EPBSForkEpoch := 100%N
|}.

Definition c1 : bytes := repeat x01 48.
Definition c2 : bytes := repeat x02 48.
Definition rootAA : bytes := repeat xaa 32.

Definition payload (commitments : list bytes) : blocks.GetPayloadResponse := {|
  blocks.ExecutionData := {|
    interfaces.ParentHash := repeat x11 32;
    interfaces.BlockHash := repeat x22 32;
    interfaces.GasLimit := 30000000%N
  |};
  blocks.BlobsBundle := {| enginev1.KzgCommitments := commitments |}
|}.

(** The state handle is the slot it was resolved for. *)
Definition server (syncing : bool)
  (optimistic resolution production : option error)
  (commitments : list bytes) : validator.Server N := {|
  validator.Syncing := syncing;
  validator.optimisticStatus := optimistic;
  validator.getParentState := fun slot => (slot, rootAA, resolution);
  validator.getLocalPayloadFromEngine :=
    fun _ _ _ _ => (payload commitments, production)
|}.

Definition ready : validator.Server N :=
  server false None None None [c1; c2].
Definition syncing : validator.Server N :=
  server true None None None [c1; c2].
Definition optimistic : validator.Server N :=
  server false (Some (errorString "node is optimistic")) None None [c1; c2].
Definition syncing_and_optimistic : validator.Server N :=
  server true (Some (errorString "node is optimistic")) None None [c1; c2].
Definition unresolved : validator.Server N :=
  server false None (Some (statusError codes.NotFound "no parent state"))
         None [c1; c2].
Definition engine_down : validator.Server N :=
  server false None None (Some (errorString "engine unavailable")) [c1; c2].
Definition too_many : validator.Server N :=
  server false None None None (repeat c1 7).

(** The header expected for [ready] at slot 3200 and proposer 7. *)
Definition header_at_fork : enginev1.ExecutionPayloadHeaderEPBS := {|
  enginev1.ParentBlockHash := repeat x11 32;
  enginev1.ParentBlockRoot := rootAA;
  enginev1.BlockHash := repeat x22 32;
  enginev1.GasLimit := 30000000%N;
  enginev1.BuilderIndex := 7%N;
  enginev1.Slot := 3200%N;
  enginev1.Value := 0%N;
  enginev1.BlobKzgCommitmentsRoot := fst (ssz.KzgCommitmentsRoot mk [c1; c2])
|}.

(** Another node: activation at epoch 0, 8 slots per epoch, another
    state handle, parent root and execution data, the same commitments. *)
Definition cfg' : params.BeaconChainConfig := {|
  params.SlotsPerEpoch := 8;
  params.EPBSForkEpoch := 0%N
|}.

Definition rootBB : bytes := repeat xbb 32.

Definition payload' : blocks.GetPayloadResponse := {|
  blocks.ExecutionData := {|
    interfaces.ParentHash := repeat x33 32;
    interfaces.BlockHash := repeat x44 32;
    interfaces.GasLimit := 36000000%N
  |};
  blocks.BlobsBundle := {| enginev1.KzgCommitments := [c1; c2] |}
|}.

Definition elsewhere : validator.Server N := {|
  validator.Syncing := false;
  validator.optimisticStatus := None;
  validator.getParentState := fun slot => ((slot + 1000)%N, rootBB, None);
  validator.getLocalPayloadFromEngine := fun _ _ _ _ => (payload', None)
|}.

(** The header expected for [elsewhere] at slot 3233 and proposer 9. *)
Definition header_elsewhere : enginev1.ExecutionPayloadHeaderEPBS := {|
  enginev1.ParentBlockHash := repeat x33 32;
  enginev1.ParentBlockRoot := rootBB;
  enginev1.BlockHash := repeat x44 32;
  enginev1.GasLimit := 36000000%N;
  enginev1.BuilderIndex := 9%N;
  enginev1.Slot := 3233%N;
  enginev1.Value := 0%N;
  enginev1.BlobKzgCommitmentsRoot := fst (ssz.KzgCommitmentsRoot mk [c1; c2])
|}.

(** Epoch 50, before the activation epoch. *)
Definition early : ethpb.HeaderRequest :=
  {| ethpb.Slot := 1600%N; ethpb.ProposerIndex := 7%N |}.
(** Epoch 100, the activation epoch. *)
Definition at_fork : ethpb.HeaderRequest :=
  {| ethpb.Slot := 3200%N; ethpb.ProposerIndex := 7%N |}.
(** Epoch 101, another proposer. *)
Definition later : ethpb.HeaderRequest :=
  {| ethpb.Slot := 3233%N; ethpb.ProposerIndex := 9%N |}.

End fixtures.


(** ** Concrete options, used to run [New] *)

Module fixtures_http.

(** Routers are named by a number; the other opaque types are [unit]. *)
Definition Server : Type := httprest.Server N unit unit unit.
Definition Option : Type := httprest.Option N unit unit unit.

Definition set_cfg (g : Server) (c : httprest.config N unit) : Server := {|
  httprest.cfg := c;
  httprest.server := httprest.server g;
  httprest.cancel := httprest.cancel g;
  httprest.ctx := httprest.ctx g;
  httprest.startFailure := httprest.startFailure g
|}.

(** An option that sets the router. *)
Definition router_option (r : N) : Option := fun g =>
  (set_cfg g {|
     httprest.httpAddr := httprest.httpAddr (httprest.cfg g);
     httprest.allowedOrigins := httprest.allowedOrigins (httprest.cfg g);
     httprest.handler := httprest.handler (httprest.cfg g);
     httprest.router := Some r;
     httprest.timeout := httprest.timeout (httprest.cfg g)
   |}, None).

(** An option that sets the timeout. *)
Definition timeout_option (d : time.Duration) : Option := fun g =>
  (set_cfg g {|
     httprest.httpAddr := httprest.httpAddr (httprest.cfg g);
     httprest.allowedOrigins := httprest.allowedOrigins (httprest.cfg g);
     httprest.handler := httprest.handler (httprest.cfg g);
     httprest.router := httprest.router (httprest.cfg g);
     httprest.timeout := d
   |}, None).

(** An option that fails. *)
Definition failing_option : Option := fun g =>
  (g, Some (errorString "bad option")).

Definition thirty_seconds : time.Duration := (30 * time.Second)%Z.

End fixtures_http.

(** ** The HTTP-REST server as a service: Start, Status, Stop *)

Module service.

Section Service.

Variables Router httpHandler Context CancelFunc : Type.

Let Server := httprest.Server Router httpHandler Context CancelFunc.

(** What the methods use of their environment: the two context
    constructors, the two blocking methods of [http.Server], and the two
    tests on errors.  Whether an error is the value [http.ErrServerClosed],
    and whether [errors.Is] finds [context.DeadlineExceeded] in its chain,
    is a matter of the identity of error values, which [error] does not
    carry; both tests are given by the environment. *)
Record Env : Type := {
  WithCancel : Context -> Context * CancelFunc;
  WithTimeout : Context -> time.Duration -> Context * CancelFunc;
  ListenAndServe : http.Server Router -> option error;
  Shutdown : http.Server Router -> Context -> option error;
  isErrServerClosed : error -> bool;
  isDeadlineExceeded : error -> bool
}.

(** What a method does that can be seen from outside. *)
Inductive Event : Type :=
| Go
| LogInfo (msg address : string)
| LogWarn (msg : string)
| LogError (msg : string) (err : option error)
| CallListenAndServe (srv : http.Server Router)
| CallShutdown (srv : http.Server Router) (shutdownCtx : Context)
| CallCancel (c : CancelFunc).

Definition set_cancel (g : Server) (c : CancelFunc) : Server := {|
  httprest.cfg := httprest.cfg g;
  httprest.server := httprest.server g;
  httprest.cancel := Some c;
  httprest.ctx := httprest.ctx g;
  httprest.startFailure := httprest.startFailure g
|}.

Definition set_startFailure (g : Server) (err : option error) : Server := {|
  httprest.cfg := httprest.cfg g;
  httprest.server := httprest.server g;
  httprest.cancel := httprest.cancel g;
  httprest.ctx := httprest.ctx g;
  httprest.startFailure := err
|}.

(** The log lines of a trace. *)
Definition is_log (e : Event) : bool :=
  match e with
  | LogInfo _ _ | LogWarn _ | LogError _ _ => true
  | _ => false
  end.

Definition logs (t : list Event) : list Event := filter is_log t.

Variable env : Env.

(** [err != http.ErrServerClosed]. *)
Definition notErrServerClosed (err : option error) : bool :=
  match err with
  | Some e => negb (isErrServerClosed env e)
  | None => true
  end.

(** Start the http rest service: the part that runs in the caller.  It
    stores the cancel function of a new context and launches a goroutine. *)
Definition Start (g : Server) : Server * list Event :=
  let (_, cancel) := WithCancel env (httprest.ctx g) in
  (set_cancel g cancel, [Go]).

(** The body of the goroutine that [Start] launches, run on the server as
    it is when the goroutine runs.  [None] is the nil pointer dereference
    of [g.server.ListenAndServe()] on a server that has no [http.Server]. *)
Definition Start_goroutine (g : Server) : option (Server * list Event) :=
  match httprest.server g with
  | None => None
  | Some srv =>
      let t := [LogInfo "Starting HTTP server"
                        (httprest.httpAddr (httprest.cfg g));
                CallListenAndServe srv] in
      let err := ListenAndServe env srv in
      if notErrServerClosed err then
        Some (set_startFailure g err,
              t ++ [LogError "Failed to start HTTP server" err])
      else Some (g, t)
  end.

(** Status of the HTTP server. Returns an error if this service is
    unhealthy. *)
Definition Status (g : Server) : option error :=
  if notNil (httprest.startFailure g) then httprest.startFailure g
  else None.

(** Stop the HTTP server with a graceful shutdown.  The deferred
    [shutdownCancel()] runs when [Stop] returns, after [g.cancel()]. *)
Definition Stop (g : Server) : list Event * option error :=
  let '(body, deferred) :=
    match httprest.server g with
    | Some srv =>
        let (shutdownCtx, shutdownCancel) :=
          WithTimeout env (httprest.ctx g) (2 * time.Second)%Z in
        let err := Shutdown env srv shutdownCtx in
        (CallShutdown srv shutdownCtx
           :: match err with
              | Some e =>
                  if isDeadlineExceeded env e
                  then [LogWarn "Existing connections terminated"]
                  else [LogError "Failed to gracefully shut down server" err]
              | None => []
              end,
         [CallCancel shutdownCancel])
    | None => ([], [])
    end in
  let cancelled :=
    match httprest.cancel g with
    | Some c => [CallCancel c]
    | None => []
    end in
  (body ++ cancelled ++ deferred, None).

End Service.

End service.

Arguments service.WithCancel {Router Context CancelFunc} e ctx.
Arguments service.WithTimeout {Router Context CancelFunc} e ctx d.
Arguments service.ListenAndServe {Router Context CancelFunc} e srv.
Arguments service.Shutdown {Router Context CancelFunc} e srv ctx.
Arguments service.isErrServerClosed {Router Context CancelFunc} e err.
Arguments service.isDeadlineExceeded {Router Context CancelFunc} e err.
Arguments service.Go {Router Context CancelFunc}.
Arguments service.LogInfo {Router Context CancelFunc} msg address.
Arguments service.LogWarn {Router Context CancelFunc} msg.
Arguments service.LogError {Router Context CancelFunc} msg err.
Arguments service.CallListenAndServe {Router Context CancelFunc} srv.
Arguments service.CallShutdown {Router Context CancelFunc} srv shutdownCtx.
Arguments service.CallCancel {Router Context CancelFunc} c.
Arguments service.is_log {Router Context CancelFunc} e.
Arguments service.logs {Router Context CancelFunc} t.
Arguments service.set_cancel {Router httpHandler Context CancelFunc} g c.
Arguments service.set_startFailure
  {Router httpHandler Context CancelFunc} g err.
Arguments service.notErrServerClosed {Router Context CancelFunc} env err.
Arguments service.Start {Router httpHandler Context CancelFunc} env g.
Arguments service.Start_goroutine
  {Router httpHandler Context CancelFunc} env g.
Arguments service.Status {Router httpHandler Context CancelFunc} g.
Arguments service.Stop {Router httpHandler Context CancelFunc} env g.

(** ** Tracing setup *)

Module tracing.

(** A line of the log. *)
Inductive LogEntry : Type :=
| Infof (msg : string)
| Printf (msg : string)
| ErrorWithError (err : error) (msg : string).

(** [jaeger.Tag], built by [jaeger.StringTag]. *)
Record Tag : Type := StringTag { Key : string; Value : string }.

(** [jaeger.Process]. *)
Record Process : Type := {
  ServiceName : string;
  Tags : list Tag
}.

(** [jaeger.Options], the fields [Setup] sets. *)
Record Options : Type := {
  CollectorEndpoint : string;
  Process_ : Process;
  BufferMaxCount : Z;
  OnError : error -> list LogEntry
}.

(** The propagators [SetupOtel] installs. *)
Inductive Propagator : Type := TraceContext | Baggage.

Section Tracing.

(** The sample fraction is a [float64] that is only handed on; exporters
    are opaque. *)
Variables float64 JaegerExporter StdoutExporter : Type.

(** [trace.Sampler] of OpenCensus. *)
Inductive Sampler : Type :=
| NeverSample
| ProbabilitySampler (fraction : float64).

(** [trace.Config], the fields [Setup] sets; a field that is not set is
    zero.  [DefaultSampler] is never nil in [Setup]. *)
Record Config : Type := {
  DefaultSampler : Sampler;
  MaxMessageEventsPerSpan : Z
}.

(** The tracer provider [SetupOtel] builds: the exporter behind the
    batcher, the attributes of the resource (with the schema URL), and the
    ratio of the sampler. *)
Record TracerProvider : Type := {
  Batcher : option StdoutExporter;
  ResourceSchemaURL : string;
  ResourceAttributes : list (string * string);
  TraceIDRatioBased : float64
}.

(** The calls on the tracing libraries and the log. *)
Inductive Event : Type :=
| ApplyConfig (c : Config)
| Log (l : LogEntry)
| CallNewExporter (o : Options)
| RegisterExporter (e : option JaegerExporter)
| CallStdoutNew (prettyPrint : bool)
| SetTracerProvider (tp : TracerProvider)
| SetTextMapPropagator (ps : list Propagator).

(** What is defined outside the file: the version of the build, the two
    exporter constructors (in Go's [(value, error)] form), and two constants
    of the semantic conventions. *)
Record Env : Type := {
  Version : string;
  NewExporter : Options -> option JaegerExporter * option error;
  stdoutNew : option StdoutExporter * option error;
  SchemaURL : string;
  ServiceNameKey : string
}.

Variable env : Env.

(** The [jaeger.Options] literal of [Setup]. *)
Definition exporterOptions (serviceName processName endpoint : string)
  : Options := {|
  CollectorEndpoint := endpoint;
  Process_ := {|
    ServiceName := serviceName;
    Tags := [StringTag "process_name" processName;
             StringTag "version" (Version env)]
  |};
  BufferMaxCount := 10000;
  OnError := fun err => [ErrorWithError err "Could not process span"]
|}.

(** The [trace.Config] literals of [Setup]. *)
Definition neverSampleConfig : Config :=
  {| DefaultSampler := NeverSample; MaxMessageEventsPerSpan := 0 |}.

Definition probabilityConfig (sampleFraction : float64) : Config :=
  {| DefaultSampler := ProbabilitySampler sampleFraction;
     MaxMessageEventsPerSpan := 500 |}.

(** Setup creates and initializes a new tracing configuration. *)
Definition Setup (serviceName processName endpoint : string)
  (sampleFraction : float64) (enable : bool) : list Event * option error :=
  if negb enable then
    ([ApplyConfig neverSampleConfig], None)
  else if String.eqb serviceName "" then
    ([], errors.New "tracing service name cannot be empty")
  else
    let applied :=
      [ApplyConfig (probabilityConfig sampleFraction);
       Log (Infof ("Starting Jaeger exporter endpoint at address = "
                   ++ endpoint))] in
    let opts := exporterOptions serviceName processName endpoint in
    let (exporter, err) := NewExporter env opts in
    if notNil err then
      (applied ++ [CallNewExporter opts], err)
    else
      (applied ++ [CallNewExporter opts; RegisterExporter exporter], None).

(** The tracer provider of [SetupOtel]. *)
Definition tracerProvider (exporter : option StdoutExporter)
  (serviceName processName : string) (sampleFraction : float64)
  : TracerProvider := {|
  Batcher := exporter;
  ResourceSchemaURL := SchemaURL env;
  ResourceAttributes := [(ServiceNameKey env, serviceName);
                         ("process_name"%string, processName)];
  TraceIDRatioBased := sampleFraction
|}.

(** SetupOtel creates and initializes a new tracing configuration using
    OpenTelemetry. *)
Definition SetupOtel (serviceName processName endpoint : string)
  (sampleFraction : float64) (enable : bool) : list Event * option error :=
  if negb enable then
    ([], None)
  else if String.eqb serviceName "" then
    ([], errors.New "tracing service name cannot be empty")
  else
    let (exporter, err) := stdoutNew env in
    if notNil err then
      ([CallStdoutNew true], err)
    else
      let tp := tracerProvider exporter serviceName processName
                               sampleFraction in
      ([CallStdoutNew true;
        SetTracerProvider tp;
        SetTextMapPropagator [TraceContext; Baggage];
        Log (Printf ("Tracing enabled with endpoint: " ++ endpoint))],
       None).

End Tracing.

End tracing.

Arguments tracing.NeverSample {float64}.
Arguments tracing.ProbabilitySampler {float64} fraction.
Arguments tracing.DefaultSampler {float64} c.
Arguments tracing.MaxMessageEventsPerSpan {float64} c.
Arguments tracing.Batcher {float64 StdoutExporter} t.
Arguments tracing.ResourceSchemaURL {float64 StdoutExporter} t.
Arguments tracing.ResourceAttributes {float64 StdoutExporter} t.
Arguments tracing.TraceIDRatioBased {float64 StdoutExporter} t.
Arguments tracing.ApplyConfig {float64 JaegerExporter StdoutExporter} c.
Arguments tracing.Log {float64 JaegerExporter StdoutExporter} l.
Arguments tracing.CallNewExporter {float64 JaegerExporter StdoutExporter} o.
Arguments tracing.RegisterExporter {float64 JaegerExporter StdoutExporter} e.
Arguments tracing.CallStdoutNew
  {float64 JaegerExporter StdoutExporter} prettyPrint.
Arguments tracing.SetTracerProvider
  {float64 JaegerExporter StdoutExporter} tp.
Arguments tracing.SetTextMapPropagator
  {float64 JaegerExporter StdoutExporter} ps.
Arguments tracing.Version {JaegerExporter StdoutExporter} e.
Arguments tracing.NewExporter {JaegerExporter StdoutExporter} e o.
Arguments tracing.stdoutNew {JaegerExporter StdoutExporter} e.
Arguments tracing.SchemaURL {JaegerExporter StdoutExporter} e.
Arguments tracing.ServiceNameKey {JaegerExporter StdoutExporter} e.
Arguments tracing.exporterOptions {JaegerExporter StdoutExporter}
  env serviceName processName endpoint.
Arguments tracing.neverSampleConfig {float64}.
Arguments tracing.probabilityConfig {float64} sampleFraction.
Arguments tracing.tracerProvider {float64 JaegerExporter StdoutExporter}
  env exporter serviceName processName sampleFraction.
Arguments tracing.Setup {float64 JaegerExporter StdoutExporter}
  env serviceName processName endpoint sampleFraction enable.
Arguments tracing.SetupOtel {float64 JaegerExporter StdoutExporter}
  env serviceName processName endpoint sampleFraction enable.

(** ** Concrete environments, used to run the service and the tracing setup *)

Module fixtures_service.

(** Contexts and cancel functions are named by numbers: cancelling context
    [c] gives context and cancel function [c + 1], a timeout on it gives
    context and cancel function [c + 2]. *)
Definition env (serving stopping : option error)
  : service.Env N N N := {|
  service.WithCancel := fun c => ((c + 1)%N, (c + 1)%N);
  service.WithTimeout := fun c _ => ((c + 2)%N, (c + 2)%N);
  service.ListenAndServe := fun _ => serving;
  service.Shutdown := fun _ _ => stopping;
  service.isErrServerClosed :=
    fun e => match e with
             | errorString "http: Server closed" => true
             | _ => false
             end;
  service.isDeadlineExceeded :=
    fun e => match e with
             | errorString "context deadline exceeded" => true
             | _ => false
             end
|}.

Definition closed : option error := Some (errorString "http: Server closed").
Definition in_use : option error :=
  Some (errorString "listen tcp :3500: bind: address already in use").
Definition deadline : option error :=
  Some (errorString "context deadline exceeded").

(** An option that sets the router and the address. *)
Definition router_option (r : N) (addr : string)
  : httprest.Option N unit N N := fun g =>
  ({| httprest.cfg := {|
        httprest.httpAddr := addr;
        httprest.allowedOrigins :=
          httprest.allowedOrigins (httprest.cfg g);
        httprest.handler := httprest.handler (httprest.cfg g);
        httprest.router := Some r;
        httprest.timeout := httprest.timeout (httprest.cfg g)
      |};
      httprest.server := httprest.server g;
      httprest.cancel := httprest.cancel g;
      httprest.ctx := httprest.ctx g;
      httprest.startFailure := httprest.startFailure g
   |}, None).

(** The options of the running example, for context 10. *)
Definition opts : list (httprest.Option N unit N N) :=
  [router_option 1 ":3500"].

(** The server New returns for these options, and that server started. *)
Definition built : httprest.Server N unit N N :=
  match fst (httprest.New 10%N opts) with
  | Some s => s
  | None => httprest.empty_server 10%N
  end.

Definition started : httprest.Server N unit N N :=
  fst (service.Start (env closed None) built).

End fixtures_service.

Module fixtures_tracing.

(** Sample fractions are named by numbers; so are exporters. *)
Definition env (jaeger stdout : option error) : tracing.Env N N := {|
  tracing.Version := "v5.0.0";
  tracing.NewExporter :=
    fun _ => (match jaeger with None => Some 1%N | Some _ => None end,
              jaeger);
  tracing.stdoutNew :=
    (match stdout with None => Some 2%N | Some _ => None end, stdout);
  tracing.SchemaURL := "https://opentelemetry.io/schemas/1.17.0";
  tracing.ServiceNameKey := "service.name"
|}.

Definition unreachable : option error :=
  Some (errorString "missing endpoint for Jaeger exporter").

End fixtures_tracing.

(** * Properties of [GetLocalHeader] *)

(** Unfold a run of the RPC down to its collaborators' answers. *)
Ltac unfold_run :=
  unfold validator.response, validator.calls, validator.run,
    validator.GetLocalHeader, validator.bind, validator.call,
    validator.Return.

(** Split a run on the answer of every collaborator, in pipeline order. *)
Ltac split_run vs req :=
  unfold_run;
  destruct (validator.Syncing vs) eqn:Hsync; cbn [notNil];
  [ | destruct (validator.optimisticStatus vs) as [cause|] eqn:Hopt;
      cbn [notNil];
      [ | destruct (N.ltb _ _) eqn:Hfork;
          [ | destruct (validator.getParentState vs _)
                as [[st parentRoot] [rerr|]] eqn:Hres; cbn [notNil];
              [ | destruct (validator.getLocalPayloadFromEngine vs _ _ _ _)
                    as [localPayload [perr|]] eqn:Hprod; cbn [notNil];
                  [ | destruct (ssz.KzgCommitmentsRoot _ _)
                        as [kzgRoot [serr|]] eqn:Hroot;
                      cbn [notNil] ] ] ] ] ].

Section Stages.

Context {BeaconState : Type}.
Variable cfg : params.BeaconChainConfig.
Variable mk : ssz.Merkleizer.
Variable vs : validator.Server BeaconState.
Variable req : ethpb.HeaderRequest.

Let slot := ethpb.Slot req.
Let proposerIndex := ethpb.ProposerIndex req.
Let Run := validator.run (validator.GetLocalHeader cfg mk vs req).

(** Stage 1: the node is syncing. *)
Lemma run_syncing :
  validator.Syncing vs = true ->
  Run = ([validator.CallSyncing], (None, Some taxonomy.NotReadySyncing)).
Proof.
  subst Run; unfold_run; intros ->; reflexivity.
Qed.

(** Stage 2: the optimistic check fails. *)
Lemma run_optimistic (cause : error) :
  validator.Syncing vs = false ->
  validator.optimisticStatus vs = Some cause ->
  Run = ([validator.CallSyncing; validator.CallOptimisticStatus],
         (None, Some (taxonomy.NotReadyOptimistic cause))).
Proof.
  subst Run; unfold_run; intros -> ->; reflexivity.
Qed.

(** Stage 3: the fork is not active at the slot. *)
Lemma run_fork_not_active :
  validator.Syncing vs = false ->
  validator.optimisticStatus vs = None ->
  (slots.ToEpoch cfg slot < params.EPBSForkEpoch cfg)%N ->
  Run = ([validator.CallSyncing; validator.CallOptimisticStatus],
         (None, Some taxonomy.ForkNotActive)).
Proof.
  subst Run slot; unfold_run; intros -> -> Hlt.
  apply N.ltb_lt in Hlt. cbn [notNil]. rewrite Hlt. reflexivity.
Qed.

(** Stage 4: the gate is open and the resolver fails. *)
Lemma run_resolution_error st parentRoot (e : error) :
  gate_open cfg vs req ->
  validator.getParentState vs slot = (st, parentRoot, Some e) ->
  Run = ([validator.CallSyncing; validator.CallOptimisticStatus;
          validator.CallGetParentState slot],
         (None, Some e)).
Proof.
  subst Run slot; unfold_run; intros (-> & -> & Hle) Hres.
  apply N.ltb_ge in Hle. cbn [notNil]. rewrite Hle, Hres. reflexivity.
Qed.

(** Stage 5: the resolver answers and the producer fails. *)
Lemma run_production_error st parentRoot localPayload (e : error) :
  gate_open cfg vs req ->
  validator.getParentState vs slot = (st, parentRoot, None) ->
  validator.getLocalPayloadFromEngine vs st parentRoot slot proposerIndex
    = (localPayload, Some e) ->
  Run = ([validator.CallSyncing; validator.CallOptimisticStatus;
          validator.CallGetParentState slot;
          validator.CallGetLocalPayloadFromEngine
            st parentRoot slot proposerIndex],
         (None, Some (taxonomy.InternalProduction e))).
Proof.
  subst Run slot proposerIndex; unfold_run; intros (-> & -> & Hle) Hres Hprod.
  apply N.ltb_ge in Hle. cbn [notNil]. rewrite Hle, Hres. cbn [notNil].
  rewrite Hprod. reflexivity.
Qed.

(** Stage 6: the payload is there and its commitments have no root. *)
Lemma run_serialization_error st parentRoot localPayload kzgRoot (e : error) :
  gate_open cfg vs req ->
  validator.getParentState vs slot = (st, parentRoot, None) ->
  validator.getLocalPayloadFromEngine vs st parentRoot slot proposerIndex
    = (localPayload, None) ->
  ssz.KzgCommitmentsRoot mk
    (enginev1.KzgCommitments (blocks.BlobsBundle localPayload))
    = (kzgRoot, Some e) ->
  Run = ([validator.CallSyncing; validator.CallOptimisticStatus;
          validator.CallGetParentState slot;
          validator.CallGetLocalPayloadFromEngine
            st parentRoot slot proposerIndex],
         (None, Some (taxonomy.InternalSerialization e))).
Proof.
  subst Run slot proposerIndex; unfold_run.
  intros (-> & -> & Hle) Hres Hprod Hroot.
  apply N.ltb_ge in Hle. cbn [notNil]. rewrite Hle, Hres. cbn [notNil].
  rewrite Hprod. cbn [notNil]. rewrite Hroot. reflexivity.
Qed.

(** Stage 7: every stage succeeds and the header is assembled. *)
Lemma run_success st parentRoot localPayload kzgRoot :
  gate_open cfg vs req ->
  validator.getParentState vs slot = (st, parentRoot, None) ->
  validator.getLocalPayloadFromEngine vs st parentRoot slot proposerIndex
    = (localPayload, None) ->
  ssz.KzgCommitmentsRoot mk
    (enginev1.KzgCommitments (blocks.BlobsBundle localPayload))
    = (kzgRoot, None) ->
  Run = ([validator.CallSyncing; validator.CallOptimisticStatus;
          validator.CallGetParentState slot;
          validator.CallGetLocalPayloadFromEngine
            st parentRoot slot proposerIndex],
         (Some {|
            enginev1.ParentBlockHash :=
              interfaces.ParentHash (blocks.ExecutionData localPayload);
            enginev1.ParentBlockRoot := parentRoot;
            enginev1.BlockHash :=
              interfaces.BlockHash (blocks.ExecutionData localPayload);
            enginev1.GasLimit :=
              interfaces.GasLimit (blocks.ExecutionData localPayload);
            enginev1.BuilderIndex := proposerIndex;
            enginev1.Slot := slot;
            enginev1.Value := 0%N;
            enginev1.BlobKzgCommitmentsRoot := kzgRoot
          |}, None)).
Proof.
  subst Run slot proposerIndex; unfold_run.
  intros (-> & -> & Hle) Hres Hprod Hroot.
  apply N.ltb_ge in Hle. cbn [notNil]. rewrite Hle, Hres. cbn [notNil].
  rewrite Hprod. cbn [notNil]. rewrite Hroot. reflexivity.
Qed.

End Stages.

(** The three errors of the gate are told apart by their messages. *)
Lemma gate_errors_distinct (cause : error) :
  taxonomy.NotReadySyncing <> taxonomy.NotReadyOptimistic cause
  /\ taxonomy.NotReadySyncing <> taxonomy.ForkNotActive
  /\ taxonomy.NotReadyOptimistic cause <> taxonomy.ForkNotActive.
Proof.
  unfold taxonomy.NotReadySyncing, taxonomy.NotReadyOptimistic,
    taxonomy.ForkNotActive.
  repeat split; cbn; discriminate.
Qed.

(** C1, as stated, fails: a syncing node answers a request of epoch 50,
    activation being at epoch 100, with the syncing error and not with
    ForkNotActive. *)
Lemma C1_counterexample :
  ~ ((slots.ToEpoch fixtures.cfg (ethpb.Slot fixtures.early)
      < params.EPBSForkEpoch fixtures.cfg)%N ->
     validator.response fixtures.cfg fixtures.mk fixtures.syncing fixtures.early
       = (None, Some taxonomy.ForkNotActive)
     /\ trace.resolver_invoked
          (validator.calls fixtures.cfg fixtures.mk fixtures.syncing
             fixtures.early) = false
     /\ trace.producer_invoked
          (validator.calls fixtures.cfg fixtures.mk fixtures.syncing
             fixtures.early) = false).
Proof.
  intros H. destruct H as [H _]; [reflexivity | ].
  vm_compute in H. discriminate H.
Qed.

(** C1 (amended): for every request whose slot has
    epoch(slot) < epbs_activation_epoch, GetLocalHeader returns no header
    and an error of status FailedPrecondition, whatever the sync and
    optimistic state, and invokes neither the parent-state resolver nor the
    payload producer; that error is ForkNotActive exactly when the node is
    not syncing and the optimistic check passes. *)
Theorem C1_below_activation_epoch {BeaconState : Type}
  (cfg : params.BeaconChainConfig) (mk : ssz.Merkleizer)
  (vs : validator.Server BeaconState) (req : ethpb.HeaderRequest) :
  (slots.ToEpoch cfg (ethpb.Slot req) < params.EPBSForkEpoch cfg)%N ->
  fst (validator.response cfg mk vs req) = None
  /\ status.Code (snd (validator.response cfg mk vs req))
     = codes.FailedPrecondition
  /\ trace.resolver_invoked (validator.calls cfg mk vs req) = false
  /\ trace.producer_invoked (validator.calls cfg mk vs req) = false
  /\ (snd (validator.response cfg mk vs req) = Some taxonomy.ForkNotActive
      <-> validator.Syncing vs = false
          /\ validator.optimisticStatus vs = None).
Proof.
  intros Hlt. unfold validator.response, validator.calls.
  destruct (validator.Syncing vs) eqn:Hsync.
  - rewrite (run_syncing cfg mk vs req Hsync).
    repeat (split; [reflexivity | ]).
    split; [ | intros [[=] _] ].
    intros H. destruct (gate_errors_distinct taxonomy.ForkNotActive)
      as (_ & Hne & _).
    cbn [snd] in H. congruence.
  - destruct (validator.optimisticStatus vs) as [cause|] eqn:Hopt.
    + rewrite (run_optimistic cfg mk vs req cause Hsync Hopt).
      repeat (split; [reflexivity | ]).
      split; [ | intros [_ [=]] ].
      intros H. destruct (gate_errors_distinct cause) as (_ & _ & Hne).
      cbn [snd] in H. congruence.
    + rewrite (run_fork_not_active cfg mk vs req Hsync Hopt Hlt).
      repeat split; reflexivity.
Qed.

Lemma C1_witness :
  (slots.ToEpoch fixtures.cfg (ethpb.Slot fixtures.early)
   < params.EPBSForkEpoch fixtures.cfg)%N
  /\ status.Code
       (snd (validator.response fixtures.cfg fixtures.mk
               fixtures.syncing_and_optimistic fixtures.early))
     = codes.FailedPrecondition
  /\ snd (validator.response fixtures.cfg fixtures.mk fixtures.ready
            fixtures.early)
     = Some taxonomy.ForkNotActive.
Proof.
  split; [reflexivity | split].
  - apply (C1_below_activation_epoch fixtures.cfg fixtures.mk
             fixtures.syncing_and_optimistic fixtures.early).
    reflexivity.
  - apply (C1_below_activation_epoch fixtures.cfg fixtures.mk fixtures.ready
             fixtures.early).
    + reflexivity.
    + split; reflexivity.
Defined.

(** C2: the gate checks syncing, then the optimistic status, then the fork
    activation.  A syncing node gets the syncing error whatever the other
    two checks say; a node that is not syncing and fails the optimistic
    check gets that error (with its cause) whatever the epoch; only when
    both pass does a slot before the activation epoch get ForkNotActive. *)
Theorem C2_gate_order {BeaconState : Type}
  (cfg : params.BeaconChainConfig) (mk : ssz.Merkleizer)
  (vs : validator.Server BeaconState) (req : ethpb.HeaderRequest) :
  (validator.Syncing vs = true ->
   validator.response cfg mk vs req = (None, Some taxonomy.NotReadySyncing))
  /\ (forall cause,
        validator.Syncing vs = false ->
        validator.optimisticStatus vs = Some cause ->
        validator.response cfg mk vs req
        = (None, Some (taxonomy.NotReadyOptimistic cause)))
  /\ (validator.Syncing vs = false ->
      validator.optimisticStatus vs = None ->
      (slots.ToEpoch cfg (ethpb.Slot req) < params.EPBSForkEpoch cfg)%N ->
      validator.response cfg mk vs req = (None, Some taxonomy.ForkNotActive)).
Proof.
  unfold validator.response. repeat split.
  - intros Hsync. now rewrite (run_syncing cfg mk vs req Hsync).
  - intros cause Hsync Hopt.
    now rewrite (run_optimistic cfg mk vs req cause Hsync Hopt).
  - intros Hsync Hopt Hlt.
    now rewrite (run_fork_not_active cfg mk vs req Hsync Hopt Hlt).
Qed.

(** All three checks violated at once: the syncing error is the one
    returned.  Syncing passed, the other two violated: the optimistic one. *)
Lemma C2_witness :
  validator.response fixtures.cfg fixtures.mk fixtures.syncing_and_optimistic
    fixtures.early
  = (None, Some taxonomy.NotReadySyncing)
  /\ validator.response fixtures.cfg fixtures.mk fixtures.optimistic
       fixtures.early
     = (None, Some (taxonomy.NotReadyOptimistic
                      (errorString "node is optimistic"))).
Proof.
  split.
  - apply (C2_gate_order fixtures.cfg fixtures.mk
             fixtures.syncing_and_optimistic fixtures.early).
    reflexivity.
  - apply (C2_gate_order fixtures.cfg fixtures.mk fixtures.optimistic
             fixtures.early); reflexivity.
Defined.

(** C3: when the node is syncing, GetLocalHeader returns no header and the
    syncing error, of status FailedPrecondition, for every slot and proposer
    index, and the only call it makes is the one on the sync checker: the
    optimistic check, the resolver and the producer are not invoked. *)
Theorem C3_syncing_short_circuits {BeaconState : Type}
  (cfg : params.BeaconChainConfig) (mk : ssz.Merkleizer)
  (vs : validator.Server BeaconState) (req : ethpb.HeaderRequest) :
  validator.Syncing vs = true ->
  validator.response cfg mk vs req = (None, Some taxonomy.NotReadySyncing)
  /\ status.Code (snd (validator.response cfg mk vs req))
     = codes.FailedPrecondition
  /\ validator.calls cfg mk vs req = [validator.CallSyncing].
Proof.
  intros Hsync. unfold validator.response, validator.calls.
  rewrite (run_syncing cfg mk vs req Hsync). repeat split.
Qed.

Lemma C3_witness :
  validator.calls fixtures.cfg fixtures.mk fixtures.syncing fixtures.at_fork
  = [validator.CallSyncing].
Proof.
  apply (C3_syncing_short_circuits fixtures.cfg fixtures.mk fixtures.syncing
           fixtures.at_fork).
  reflexivity.
Defined.

(** C4: whenever GetLocalHeader returns a nil error it returns a header
    whose builder index is the proposer index of the request, whose value
    is 0 and whose slot is the slot of the request. *)
Theorem C4_builder_value_slot {BeaconState : Type}
  (cfg : params.BeaconChainConfig) (mk : ssz.Merkleizer)
  (vs : validator.Server BeaconState) (req : ethpb.HeaderRequest) :
  snd (validator.response cfg mk vs req) = None ->
  exists h,
    fst (validator.response cfg mk vs req) = Some h
    /\ enginev1.BuilderIndex h = ethpb.ProposerIndex req
    /\ enginev1.Value h = 0%N
    /\ enginev1.Slot h = ethpb.Slot req.
Proof.
  split_run vs req; cbn; intros H; try discriminate H.
  eexists; repeat split.
Qed.

Lemma C4_witness :
  exists h,
    fst (validator.response fixtures.cfg fixtures.mk fixtures.ready
           fixtures.later) = Some h
    /\ enginev1.BuilderIndex h = 9%N
    /\ enginev1.Value h = 0%N
    /\ enginev1.Slot h = 3233%N.
Proof.
  apply (C4_builder_value_slot fixtures.cfg fixtures.mk fixtures.ready
           fixtures.later).
  reflexivity.
Defined.

(** C5: with the node not syncing and the optimistic check passed, the
    epoch of the gate is slot / SLOTS_PER_EPOCH; the pipeline goes past the
    gate (the parent-state resolver is invoked, with the slot) if and only
    if that epoch is at least the activation epoch; below it the call fails
    with ForkNotActive; a slot whose epoch is the activation epoch passes. *)
Theorem C5_fork_gate {BeaconState : Type}
  (cfg : params.BeaconChainConfig) (mk : ssz.Merkleizer)
  (vs : validator.Server BeaconState) (req : ethpb.HeaderRequest) :
  validator.Syncing vs = false ->
  validator.optimisticStatus vs = None ->
  let epoch := (ethpb.Slot req / Npos (params.SlotsPerEpoch cfg))%N in
  slots.ToEpoch cfg (ethpb.Slot req) = epoch
  /\ (In (validator.CallGetParentState (ethpb.Slot req))
         (validator.calls cfg mk vs req)
      <-> (params.EPBSForkEpoch cfg <= epoch)%N)
  /\ ((epoch < params.EPBSForkEpoch cfg)%N ->
      validator.response cfg mk vs req = (None, Some taxonomy.ForkNotActive))
  /\ (epoch = params.EPBSForkEpoch cfg ->
      In (validator.CallGetParentState (ethpb.Slot req))
         (validator.calls cfg mk vs req)).
Proof.
  intros Hsync Hopt epoch.
  assert (Hpast : (params.EPBSForkEpoch cfg <= epoch)%N ->
                  In (validator.CallGetParentState (ethpb.Slot req))
                     (validator.calls cfg mk vs req)).
  { intros Hle. apply N.ltb_ge in Hle. subst epoch.
    unfold_run. rewrite Hsync, Hopt. cbn [notNil].
    unfold slots.ToEpoch. rewrite Hle.
    destruct (validator.getParentState vs _) as [[st parentRoot] [rerr|]];
      cbn [notNil].
    - cbn. tauto.
    - destruct (validator.getLocalPayloadFromEngine vs _ _ _ _)
        as [localPayload [perr|]]; cbn [notNil].
      + cbn. tauto.
      + destruct (ssz.KzgCommitmentsRoot _ _) as [kzgRoot [serr|]]; cbn;
          tauto. }
  assert (Hbelow : (epoch < params.EPBSForkEpoch cfg)%N ->
                   validator.run (validator.GetLocalHeader cfg mk vs req)
                   = ([validator.CallSyncing; validator.CallOptimisticStatus],
                      (None, Some taxonomy.ForkNotActive))).
  { intros Hlt. now apply run_fork_not_active. }
  split; [reflexivity | split; [split | split]].
  - intros Hin. destruct (N.lt_ge_cases epoch (params.EPBSForkEpoch cfg))
      as [Hlt | Hge]; [ | exact Hge].
    unfold validator.calls in Hin. rewrite (Hbelow Hlt) in Hin.
    cbn in Hin. destruct Hin as [Hin | [Hin | []]]; discriminate Hin.
  - exact Hpast.
  - intros Hlt. unfold validator.response. now rewrite (Hbelow Hlt).
  - intros Heq. apply Hpast. rewrite Heq. apply N.le_refl.
Qed.

(** Slot 3200 is in epoch 100, the activation epoch: the resolver is
    invoked.  Slot 1600 is in epoch 50: ForkNotActive. *)
Lemma C5_witness :
  In (validator.CallGetParentState 3200%N)
     (validator.calls fixtures.cfg fixtures.mk fixtures.ready fixtures.at_fork)
  /\ validator.response fixtures.cfg fixtures.mk fixtures.ready fixtures.early
     = (None, Some taxonomy.ForkNotActive).
Proof.
  split.
  - apply (C5_fork_gate fixtures.cfg fixtures.mk fixtures.ready
             fixtures.at_fork eq_refl eq_refl).
    reflexivity.
  - apply (C5_fork_gate fixtures.cfg fixtures.mk fixtures.ready
             fixtures.early eq_refl eq_refl).
    reflexivity.
Defined.

(** An oversized commitment list has no root: the serialization error. *)
Lemma KzgCommitmentsRoot_oversized (mk : ssz.Merkleizer)
  (commitments : list bytes) :
  (ssz.MaxBlobsPerBlock mk < N.of_nat (List.length commitments))%N ->
  ssz.KzgCommitmentsRoot mk commitments
  = (repeat x00 32, Some (ssz.errSerialization mk)).
Proof.
  intros Hlt. unfold ssz.KzgCommitmentsRoot.
  apply N.ltb_lt in Hlt. now rewrite Hlt.
Qed.

(** A list within the capacity has a root, the length mixed into the root
    of the tree, hence an output of the pair hash. *)
Lemma KzgCommitmentsRoot_within_capacity (mk : ssz.Merkleizer)
  (commitments : list bytes) :
  (N.of_nat (List.length commitments) <= ssz.MaxBlobsPerBlock mk)%N ->
  exists node,
    ssz.KzgCommitmentsRoot mk commitments
    = (ssz.hash_pair mk node (ssz.length_chunk (List.length commitments)),
       None).
Proof.
  intros Hle. unfold ssz.KzgCommitmentsRoot, ssz.MixInLength.
  apply N.ltb_ge in Hle. rewrite Hle. eexists. reflexivity.
Qed.

(** A root returned with a nil error is an output of the pair hash. *)
Lemma KzgCommitmentsRoot_is_hash (mk : ssz.Merkleizer)
  (commitments : list bytes) (root : bytes) :
  ssz.KzgCommitmentsRoot mk commitments = (root, None) ->
  exists a b, root = ssz.hash_pair mk a b.
Proof.
  unfold ssz.KzgCommitmentsRoot, ssz.MixInLength.
  destruct (N.ltb _ _); intros [= <-]. eauto.
Qed.

Lemma little_endian_length (n : nat) (v : N) :
  List.length (ssz.little_endian n v) = n.
Proof.
  revert v. induction n as [|n IH]; intros v; cbn; [reflexivity | ].
  now rewrite IH.
Qed.

(** One level of hashing halves a layer of even length. *)
Lemma merkle_layer_length (mk : ssz.Merkleizer) (k : nat) :
  forall l : list bytes,
    List.length l = 2 * k -> List.length (ssz.merkle_layer mk l) = k.
Proof.
  induction k as [|k IH]; intros l Hlen.
  - destruct l; [reflexivity | discriminate Hlen].
  - destruct l as [|a [|b t]]; cbn in Hlen; try lia.
    cbn. f_equal. apply IH. lia.
Qed.

(** [d] levels of hashing take a layer of [2 ^ d * w] nodes to [w] nodes. *)
Lemma merkle_layers_length (mk : ssz.Merkleizer) (d w : nat) :
  forall l : list bytes,
    List.length l = 2 ^ d * w ->
    List.length (Nat.iter d (ssz.merkle_layer mk) l) = w.
Proof.
  revert w. induction d as [|d IH]; intros w l Hlen.
  - cbn in Hlen |- *. lia.
  - cbn [Nat.iter nat_rect]. apply merkle_layer_length. apply IH.
    rewrite Hlen. cbn [Nat.pow]. lia.
Qed.

(** The capacity fits in a tree of depth [ceil(log2(MAX))]. *)
Lemma capacity_fits (mk : ssz.Merkleizer) :
  N.to_nat (ssz.MaxBlobsPerBlock mk) <= 2 ^ ssz.depth mk.
Proof.
  unfold ssz.depth.
  assert (Hle : (ssz.MaxBlobsPerBlock mk
                 <= 2 ^ N.log2_up (ssz.MaxBlobsPerBlock mk))%N).
  { destruct (N.eq_0_gt_0_cases (ssz.MaxBlobsPerBlock mk)) as [-> | Hpos].
    - cbn. lia.
    - apply N.log2_log2_up_spec, Hpos. }
  change 2 with (N.to_nat 2) at 1. rewrite <- N2Nat.inj_pow. lia.
Qed.

(** Within the capacity the leaves fill the tree and hash down to a single
    node, the root of the tree. *)
Lemma merkle_tree_single_root (mk : ssz.Merkleizer)
  (commitments : list bytes) :
  (N.of_nat (List.length commitments) <= ssz.MaxBlobsPerBlock mk)%N ->
  List.length (ssz.leaves mk commitments) = 2 ^ ssz.depth mk
  /\ Nat.iter (ssz.depth mk) (ssz.merkle_layer mk) (ssz.leaves mk commitments)
     = [ssz.merkle_root mk (ssz.leaves mk commitments)].
Proof.
  intros Hle.
  assert (Hwidth : List.length (ssz.leaves mk commitments)
                   = 2 ^ ssz.depth mk).
  { unfold ssz.leaves.
    rewrite length_app, length_map, repeat_length.
    pose proof (capacity_fits mk). lia. }
  split; [exact Hwidth | ].
  pose proof (merkle_layers_length mk (ssz.depth mk) 1
                (ssz.leaves mk commitments)) as Hone.
  rewrite Nat.mul_1_r in Hone. specialize (Hone Hwidth).
  unfold ssz.merkle_root.
  destruct (Nat.iter _ _ _) as [|node [|? ?]]; try discriminate Hone.
  reflexivity.
Qed.

Lemma fold_hash_length (d : bytes) : List.length (fixtures.fold_hash d) = 32.
Proof.
  unfold fixtures.fold_hash. apply little_endian_length.
Qed.

(** A call that returns a header went through every stage: the gate was
    open, the resolver, the producer and the commitment root all returned
    a nil error, and the header is the one assembled from their answers. *)
Lemma success_inv {BeaconState : Type}
  (cfg : params.BeaconChainConfig) (mk : ssz.Merkleizer)
  (vs : validator.Server BeaconState) (req : ethpb.HeaderRequest)
  (h : enginev1.ExecutionPayloadHeaderEPBS) :
  validator.response cfg mk vs req = (Some h, None) ->
  exists st parentRoot localPayload kzgRoot,
    gate_open cfg vs req
    /\ validator.getParentState vs (ethpb.Slot req) = (st, parentRoot, None)
    /\ validator.getLocalPayloadFromEngine vs st parentRoot (ethpb.Slot req)
         (ethpb.ProposerIndex req) = (localPayload, None)
    /\ ssz.KzgCommitmentsRoot mk
         (enginev1.KzgCommitments (blocks.BlobsBundle localPayload))
       = (kzgRoot, None)
    /\ h = {|
          enginev1.ParentBlockHash :=
            interfaces.ParentHash (blocks.ExecutionData localPayload);
          enginev1.ParentBlockRoot := parentRoot;
          enginev1.BlockHash :=
            interfaces.BlockHash (blocks.ExecutionData localPayload);
          enginev1.GasLimit :=
            interfaces.GasLimit (blocks.ExecutionData localPayload);
          enginev1.BuilderIndex := ethpb.ProposerIndex req;
          enginev1.Slot := ethpb.Slot req;
          enginev1.Value := 0%N;
          enginev1.BlobKzgCommitmentsRoot := kzgRoot
        |}.
Proof.
  split_run vs req; cbn; intros H; try discriminate H.
  injection H as <-.
  exists st, parentRoot, localPayload, kzgRoot.
  rewrite Hprod, Hroot. apply N.ltb_ge in Hfork.
  unfold gate_open. now repeat split.
Qed.

(** C6: the header of a successful call is assembled from the answers of
    the pipeline: the parent block root is the root the resolver returned,
    parent block hash, block hash and gas limit are those of the execution
    data of the produced payload, and the blob commitments root is the root
    computed over the commitment list of that payload. *)
Theorem C6_header_fields {BeaconState : Type}
  (cfg : params.BeaconChainConfig) (mk : ssz.Merkleizer)
  (vs : validator.Server BeaconState) (req : ethpb.HeaderRequest)
  (h : enginev1.ExecutionPayloadHeaderEPBS) :
  validator.response cfg mk vs req = (Some h, None) ->
  exists st parentRoot localPayload kzgRoot,
    validator.getParentState vs (ethpb.Slot req) = (st, parentRoot, None)
    /\ validator.getLocalPayloadFromEngine vs st parentRoot (ethpb.Slot req)
         (ethpb.ProposerIndex req) = (localPayload, None)
    /\ ssz.KzgCommitmentsRoot mk
         (enginev1.KzgCommitments (blocks.BlobsBundle localPayload))
       = (kzgRoot, None)
    /\ enginev1.ParentBlockRoot h = parentRoot
    /\ enginev1.ParentBlockHash h
       = interfaces.ParentHash (blocks.ExecutionData localPayload)
    /\ enginev1.BlockHash h
       = interfaces.BlockHash (blocks.ExecutionData localPayload)
    /\ enginev1.GasLimit h
       = interfaces.GasLimit (blocks.ExecutionData localPayload)
    /\ enginev1.BlobKzgCommitmentsRoot h = kzgRoot.
Proof.
  intros Hrun.
  destruct (success_inv cfg mk vs req h Hrun)
    as (st & parentRoot & localPayload & kzgRoot
        & _ & Hres & Hprod & Hroot & ->).
  exists st, parentRoot, localPayload, kzgRoot. now repeat split.
Qed.

(** The scenario of the specification: the resolver returns the parent root
    0xAA..., the producer a payload with the commitments [c1; c2]. *)
Lemma C6_witness :
  validator.response fixtures.cfg fixtures.mk fixtures.ready fixtures.at_fork
  = (Some fixtures.header_at_fork, None)
  /\ enginev1.ParentBlockRoot fixtures.header_at_fork = fixtures.rootAA
  /\ exists st parentRoot localPayload kzgRoot,
       validator.getParentState fixtures.ready 3200%N
       = (st, parentRoot, None)
       /\ validator.getLocalPayloadFromEngine fixtures.ready st parentRoot
            3200%N 7%N = (localPayload, None)
       /\ ssz.KzgCommitmentsRoot fixtures.mk
            (enginev1.KzgCommitments (blocks.BlobsBundle localPayload))
          = (kzgRoot, None)
       /\ enginev1.ParentBlockRoot fixtures.header_at_fork = parentRoot
       /\ enginev1.ParentBlockHash fixtures.header_at_fork
          = interfaces.ParentHash (blocks.ExecutionData localPayload)
       /\ enginev1.BlockHash fixtures.header_at_fork
          = interfaces.BlockHash (blocks.ExecutionData localPayload)
       /\ enginev1.GasLimit fixtures.header_at_fork
          = interfaces.GasLimit (blocks.ExecutionData localPayload)
       /\ enginev1.BlobKzgCommitmentsRoot fixtures.header_at_fork = kzgRoot.
Proof.
  assert (Hrun : validator.response fixtures.cfg fixtures.mk fixtures.ready
                   fixtures.at_fork = (Some fixtures.header_at_fork, None))
    by (vm_compute; reflexivity).
  split; [exact Hrun | split; [reflexivity | ] ].
  exact (C6_header_fields fixtures.cfg fixtures.mk fixtures.ready
           fixtures.at_fork fixtures.header_at_fork Hrun).
Defined.

(** C7: the blob commitments root of a successful call depends on the
    ordered commitment list of the produced payload and on nothing else.
    Two successful runs, with any configurations, servers and requests,
    whose payloads carry the same commitments return the same root; and the
    root is 32 bytes long when the protocol hash yields 32 bytes. *)
Theorem C7_root_of_commitments_alone {BeaconState : Type}
  (mk : ssz.Merkleizer)
  (cfg1 cfg2 : params.BeaconChainConfig)
  (vs1 vs2 : validator.Server BeaconState)
  (req1 req2 : ethpb.HeaderRequest)
  (h1 h2 : enginev1.ExecutionPayloadHeaderEPBS)
  (st1 st2 : BeaconState) (parentRoot1 parentRoot2 : bytes)
  (localPayload1 localPayload2 : blocks.GetPayloadResponse) :
  validator.response cfg1 mk vs1 req1 = (Some h1, None) ->
  validator.response cfg2 mk vs2 req2 = (Some h2, None) ->
  validator.getParentState vs1 (ethpb.Slot req1) = (st1, parentRoot1, None) ->
  validator.getParentState vs2 (ethpb.Slot req2) = (st2, parentRoot2, None) ->
  validator.getLocalPayloadFromEngine vs1 st1 parentRoot1 (ethpb.Slot req1)
    (ethpb.ProposerIndex req1) = (localPayload1, None) ->
  validator.getLocalPayloadFromEngine vs2 st2 parentRoot2 (ethpb.Slot req2)
    (ethpb.ProposerIndex req2) = (localPayload2, None) ->
  enginev1.KzgCommitments (blocks.BlobsBundle localPayload1)
  = enginev1.KzgCommitments (blocks.BlobsBundle localPayload2) ->
  enginev1.BlobKzgCommitmentsRoot h1 = enginev1.BlobKzgCommitmentsRoot h2
  /\ enginev1.BlobKzgCommitmentsRoot h1
     = fst (ssz.KzgCommitmentsRoot mk
              (enginev1.KzgCommitments (blocks.BlobsBundle localPayload1)))
  /\ ((forall a b, List.length (ssz.hash_pair mk a b) = 32) ->
      List.length (enginev1.BlobKzgCommitmentsRoot h1) = 32).
Proof.
  intros Hrun1 Hrun2 Hres1 Hres2 Hprod1 Hprod2 Hsame.
  destruct (success_inv cfg1 mk vs1 req1 h1 Hrun1)
    as (st1' & pr1' & lp1' & k1 & _ & Hr1 & Hp1 & Hk1 & ->).
  destruct (success_inv cfg2 mk vs2 req2 h2 Hrun2)
    as (st2' & pr2' & lp2' & k2 & _ & Hr2 & Hp2 & Hk2 & ->).
  rewrite Hres1 in Hr1. injection Hr1 as <- <-.
  rewrite Hres2 in Hr2. injection Hr2 as <- <-.
  rewrite Hprod1 in Hp1. injection Hp1 as <-.
  rewrite Hprod2 in Hp2. injection Hp2 as <-.
  cbn [enginev1.BlobKzgCommitmentsRoot]. rewrite <- Hsame in Hk2.
  repeat split.
  - congruence.
  - now rewrite Hk1.
  - intros Hlen.
    destruct (KzgCommitmentsRoot_is_hash mk _ k1 Hk1) as (a & b & ->).
    apply Hlen.
Qed.

(** Two nodes that differ in configuration, slot, proposer, state handle and
    parent root, with payloads of the same two commitments. *)
Lemma C7_witness :
  enginev1.BlobKzgCommitmentsRoot fixtures.header_at_fork
  = enginev1.BlobKzgCommitmentsRoot fixtures.header_elsewhere
  /\ List.length (enginev1.BlobKzgCommitmentsRoot fixtures.header_at_fork)
     = 32.
Proof.
  assert (Hrun1 : validator.response fixtures.cfg fixtures.mk fixtures.ready
                    fixtures.at_fork = (Some fixtures.header_at_fork, None))
    by (vm_compute; reflexivity).
  assert (Hrun2 : validator.response fixtures.cfg' fixtures.mk
                    fixtures.elsewhere fixtures.later
                  = (Some fixtures.header_elsewhere, None))
    by (vm_compute; reflexivity).
  destruct (C7_root_of_commitments_alone fixtures.mk fixtures.cfg fixtures.cfg'
              fixtures.ready fixtures.elsewhere fixtures.at_fork fixtures.later
              fixtures.header_at_fork fixtures.header_elsewhere
              3200%N 4233%N fixtures.rootAA fixtures.rootBB
              (fixtures.payload [fixtures.c1; fixtures.c2]) fixtures.payload'
              Hrun1 Hrun2 eq_refl eq_refl eq_refl eq_refl eq_refl)
    as (Hsame & _ & Hlen).
  split; [exact Hsame | ].
  apply Hlen. intros a b. apply fold_hash_length.
Defined.

(** C8: past the gate, an error of the parent-state resolver is returned as
    it is, with the status it already has; an error of the payload producer
    and an error of the commitment root are returned as status Internal,
    with a message that ends in the text of the original error. *)
Theorem C8_error_classification {BeaconState : Type}
  (cfg : params.BeaconChainConfig) (mk : ssz.Merkleizer)
  (vs : validator.Server BeaconState) (req : ethpb.HeaderRequest) :
  gate_open cfg vs req ->
  (forall st parentRoot e,
      validator.getParentState vs (ethpb.Slot req) = (st, parentRoot, Some e) ->
      validator.response cfg mk vs req = (None, Some e))
  /\ (forall st parentRoot localPayload e,
        validator.getParentState vs (ethpb.Slot req)
        = (st, parentRoot, None) ->
        validator.getLocalPayloadFromEngine vs st parentRoot (ethpb.Slot req)
          (ethpb.ProposerIndex req) = (localPayload, Some e) ->
        validator.response cfg mk vs req
        = (None, Some (statusError codes.Internal
                         ("Could not get local payload: " ++ Error e))))
  /\ (forall st parentRoot localPayload kzgRoot e,
        validator.getParentState vs (ethpb.Slot req)
        = (st, parentRoot, None) ->
        validator.getLocalPayloadFromEngine vs st parentRoot (ethpb.Slot req)
          (ethpb.ProposerIndex req) = (localPayload, None) ->
        ssz.KzgCommitmentsRoot mk
          (enginev1.KzgCommitments (blocks.BlobsBundle localPayload))
        = (kzgRoot, Some e) ->
        validator.response cfg mk vs req
        = (None, Some (statusError codes.Internal
                         ("Could not get kzg commitments root: " ++ Error e)))).
Proof.
  intros Hgate. unfold validator.response. repeat split.
  - intros st parentRoot e Hres.
    now rewrite (run_resolution_error cfg mk vs req st parentRoot e Hgate Hres).
  - intros st parentRoot localPayload e Hres Hprod.
    now rewrite (run_production_error cfg mk vs req st parentRoot localPayload
                   e Hgate Hres Hprod).
  - intros st parentRoot localPayload kzgRoot e Hres Hprod Hroot.
    now rewrite (run_serialization_error cfg mk vs req st parentRoot
                   localPayload kzgRoot e Hgate Hres Hprod Hroot).
Qed.

Lemma gate_open_at_fork (vs : validator.Server N) :
  validator.Syncing vs = false ->
  validator.optimisticStatus vs = None ->
  gate_open fixtures.cfg vs fixtures.at_fork.
Proof.
  intros Hsync Hopt. repeat split; [exact Hsync | exact Hopt | ].
  intros H. discriminate H.
Defined.

(** A resolver error of status NotFound stays NotFound; an engine error and
    an oversized commitment list come back as Internal. *)
Lemma C8_witness :
  validator.response fixtures.cfg fixtures.mk fixtures.unresolved
    fixtures.at_fork
  = (None, Some (statusError codes.NotFound "no parent state"))
  /\ validator.response fixtures.cfg fixtures.mk fixtures.engine_down
       fixtures.at_fork
     = (None, Some (statusError codes.Internal
                      "Could not get local payload: engine unavailable"))
  /\ validator.response fixtures.cfg fixtures.mk fixtures.too_many
       fixtures.at_fork
     = (None,
        Some (statusError codes.Internal
                "Could not get kzg commitments root: too many commitments")).
Proof.
  split; [ | split].
  - apply (proj1 (C8_error_classification fixtures.cfg fixtures.mk
             fixtures.unresolved fixtures.at_fork
             (gate_open_at_fork fixtures.unresolved eq_refl eq_refl))
             3200%N fixtures.rootAA).
    reflexivity.
  - apply (proj1 (proj2 (C8_error_classification fixtures.cfg fixtures.mk
             fixtures.engine_down fixtures.at_fork
             (gate_open_at_fork fixtures.engine_down eq_refl eq_refl)))
             3200%N fixtures.rootAA
             (fixtures.payload [fixtures.c1; fixtures.c2])
             (errorString "engine unavailable"));
      reflexivity.
  - apply (proj2 (proj2 (C8_error_classification fixtures.cfg fixtures.mk
             fixtures.too_many fixtures.at_fork
             (gate_open_at_fork fixtures.too_many eq_refl eq_refl)))
             3200%N fixtures.rootAA
             (fixtures.payload (repeat fixtures.c1 7))
             (repeat x00 32) fixtures.oversized);
      reflexivity.
Defined.

(** C9: GetLocalHeader returns either a header and a nil error, or a nil
    header and an error; so the header is non-nil exactly when the error is
    nil, on every path. *)
Theorem C9_header_xor_error {BeaconState : Type}
  (cfg : params.BeaconChainConfig) (mk : ssz.Merkleizer)
  (vs : validator.Server BeaconState) (req : ethpb.HeaderRequest) :
  ((exists h, validator.response cfg mk vs req = (Some h, None))
   \/ (exists e, validator.response cfg mk vs req = (None, Some e)))
  /\ (fst (validator.response cfg mk vs req) <> None
      <-> snd (validator.response cfg mk vs req) = None).
Proof.
  split_run vs req; cbn; (split; [eauto | ]);
    split; intros H; try reflexivity; try discriminate; now elim H.
Qed.

(** * Properties of [New] *)

Section NewProperties.

Context {Router httpHandler Context CancelFunc : Type}.

Let Server := httprest.Server Router httpHandler Context CancelFunc.
Let Option := httprest.Option Router httpHandler Context CancelFunc.

(** The loop stops at the first option that returns an error. *)
Lemma applyOptions_first_error (pre post : list Option) (opt : Option)
  (g0 g g' : Server) (e : error) :
  httprest.applyOptions pre g0 = (g, None) ->
  opt g = (g', Some e) ->
  httprest.applyOptions (pre ++ opt :: post) g0 = (g', Some e).
Proof.
  revert g0. induction pre as [|o pre IH]; intros g0 Hpre Hopt.
  - cbn in Hpre. injection Hpre as ->. cbn. now rewrite Hopt.
  - cbn in Hpre |- *. destruct (o g0) as [g1 [e1|]]; cbn in Hpre |- *.
    + discriminate Hpre.
    + now apply IH.
Qed.

(** When the loop ends with an error, some option returned it, after the
    options before it had all returned nil. *)
Lemma applyOptions_error_inv (opts : list Option) (g0 g' : Server)
  (e : error) :
  httprest.applyOptions opts g0 = (g', Some e) ->
  exists pre opt post g,
    opts = pre ++ opt :: post
    /\ httprest.applyOptions pre g0 = (g, None)
    /\ opt g = (g', Some e).
Proof.
  revert g0. induction opts as [|o opts IH]; intros g0 H.
  - discriminate H.
  - cbn in H. destruct (o g0) as [g1 [e1|]] eqn:Ho; cbn in H.
    + injection H as <- <-. exists [], o, opts, g0. now repeat split.
    + destruct (IH g1 H) as (pre & opt & post & g & -> & Hpre & Hopt).
      exists (o :: pre), opt, post, g. repeat split; [ | exact Hopt].
      cbn. now rewrite Ho.
Qed.

End NewProperties.

(** C10: New returns no server and an error when an option, run after the
    options before it returned nil, returns an error (that error), and when
    all options return nil and leave the router nil (the error
    "router option not configured"); otherwise it returns, with a nil error,
    a server whose HTTP server has the configured router as handler and a
    read-header timeout of one second, whatever timeout is configured. *)
Theorem C10_New {Router httpHandler Context CancelFunc : Type}
  (ctx0 : Context)
  (opts : list (httprest.Option Router httpHandler Context CancelFunc)) :
  (forall pre opt post g g' e,
      opts = pre ++ opt :: post ->
      httprest.applyOptions pre (httprest.empty_server ctx0) = (g, None) ->
      opt g = (g', Some e) ->
      httprest.New ctx0 opts = (None, Some e))
  /\ (forall g,
        httprest.applyOptions opts (httprest.empty_server ctx0) = (g, None) ->
        httprest.router (httprest.cfg g) = None ->
        httprest.New ctx0 opts
        = (None, Some (errorString "router option not configured")))
  /\ (forall g r,
        httprest.applyOptions opts (httprest.empty_server ctx0) = (g, None) ->
        httprest.router (httprest.cfg g) = Some r ->
        exists s,
          httprest.New ctx0 opts = (Some s, None)
          /\ httprest.cfg s = httprest.cfg g
          /\ httprest.server s
             = Some {| http.Addr := httprest.httpAddr (httprest.cfg g);
                       http.Handler := Some r;
                       http.ReadHeaderTimeout := time.Second |})
  /\ (fst (httprest.New ctx0 opts) = None
      <-> snd (httprest.applyOptions opts (httprest.empty_server ctx0)) <> None
          \/ httprest.router
               (httprest.cfg
                  (fst (httprest.applyOptions opts
                          (httprest.empty_server ctx0)))) = None).
Proof.
  unfold httprest.New. repeat split.
  - intros pre opt post g g' e -> Hpre Hopt.
    now rewrite (applyOptions_first_error pre post opt _ g g' e Hpre Hopt).
  - intros g Hrun Hrouter. rewrite Hrun. cbn. now rewrite Hrouter.
  - intros g r Hrun Hrouter. rewrite Hrun. cbn. rewrite Hrouter.
    eexists. repeat split.
  - destruct (httprest.applyOptions opts _) as [g [e|]]; cbn.
    + intros _. left. discriminate.
    + destruct (httprest.router (httprest.cfg g)); cbn;
        [discriminate | intros _; now right].
  - destruct (httprest.applyOptions opts _) as [g [e|]]; cbn.
    + reflexivity.
    + intros [H | ->]; [now elim H | reflexivity].
Qed.

(** A failing option after the router option: its error, no server.  No
    router option: the router error.  A timeout of thirty seconds and a
    router: a server with that router and a read-header timeout of 1s. *)
Lemma C10_witness :
  httprest.New tt
    [fixtures_http.router_option 1; fixtures_http.failing_option;
     fixtures_http.timeout_option fixtures_http.thirty_seconds]
  = (None, Some (errorString "bad option"))
  /\ httprest.New tt
       [fixtures_http.timeout_option fixtures_http.thirty_seconds]
     = (None, Some (errorString "router option not configured"))
  /\ exists s,
       httprest.New tt
         [fixtures_http.timeout_option fixtures_http.thirty_seconds;
          fixtures_http.router_option 1]
       = (Some s, None)
       /\ httprest.timeout (httprest.cfg s) = 30000000000%Z
       /\ httprest.server s
          = Some {| http.Addr := EmptyString;
                    http.Handler := Some 1%N;
                    http.ReadHeaderTimeout := 1000000000%Z |}.
Proof.
  split; [ | split].
  - apply (proj1 (C10_New tt _) [fixtures_http.router_option 1]
             fixtures_http.failing_option
             [fixtures_http.timeout_option fixtures_http.thirty_seconds]
             (fst (fixtures_http.router_option 1 (httprest.empty_server tt)))
             (fst (fixtures_http.router_option 1 (httprest.empty_server tt))));
      reflexivity.
  - apply (proj1 (proj2 (C10_New tt _))
             (fst (fixtures_http.timeout_option fixtures_http.thirty_seconds
                     (httprest.empty_server tt))));
      reflexivity.
  - destruct (proj1 (proj2 (proj2 (C10_New tt
                [fixtures_http.timeout_option fixtures_http.thirty_seconds;
                 fixtures_http.router_option 1])))
                (fst (httprest.applyOptions
                        [fixtures_http.timeout_option
                           fixtures_http.thirty_seconds;
                         fixtures_http.router_option 1]
                        (httprest.empty_server tt)))
                1%N eq_refl eq_refl)
      as (s & Hnew & Hcfg & Hserver).
    exists s. split; [exact Hnew | split].
    + rewrite Hcfg. reflexivity.
    + rewrite Hserver. reflexivity.
Defined.

(** * Further properties of [GetLocalHeader] *)

(** Take apart the disjunctions and conjunctions among the hypotheses. *)
Ltac break_hyps :=
  repeat match goal with
         | H : False |- _ => destruct H
         | H : _ /\ _ |- _ => destruct H
         | H : _ \/ _ |- _ => destruct H
         end.

(** X1: GetLocalHeader returns a header exactly when every stage passes:
    the three checks of the gate, the parent-state resolver, the payload
    producer called on the resolver's state and root, and the commitment
    root of the produced payload. *)
Theorem GetLocalHeader_succeeds_iff {BeaconState : Type}
  (cfg : params.BeaconChainConfig) (mk : ssz.Merkleizer)
  (vs : validator.Server BeaconState) (req : ethpb.HeaderRequest) :
  (exists h, validator.response cfg mk vs req = (Some h, None))
  <-> (exists st parentRoot localPayload kzgRoot,
         gate_open cfg vs req
         /\ validator.getParentState vs (ethpb.Slot req)
            = (st, parentRoot, None)
         /\ validator.getLocalPayloadFromEngine vs st parentRoot
              (ethpb.Slot req) (ethpb.ProposerIndex req)
            = (localPayload, None)
         /\ ssz.KzgCommitmentsRoot mk
              (enginev1.KzgCommitments (blocks.BlobsBundle localPayload))
            = (kzgRoot, None)).
Proof.
  split.
  - intros [h Hrun].
    destruct (success_inv cfg mk vs req h Hrun)
      as (st & parentRoot & localPayload & kzgRoot
          & Hgate & Hres & Hprod & Hroot & _).
    now exists st, parentRoot, localPayload, kzgRoot.
  - intros (st & parentRoot & localPayload & kzgRoot
            & Hgate & Hres & Hprod & Hroot).
    unfold validator.response.
    rewrite (run_success cfg mk vs req st parentRoot localPayload kzgRoot
               Hgate Hres Hprod Hroot).
    eexists. reflexivity.
Qed.

(** X2: the collaborators are called in the order sync checker, optimistic
    check, resolver, producer, each at most once, and the calls made are an
    initial part of that sequence: none is skipped.  The resolver gets the
    slot of the request; the producer gets the state and the root the
    resolver returned, the slot and the proposer index of the request. *)
Theorem calls_initial_part_of_pipeline {BeaconState : Type}
  (cfg : params.BeaconChainConfig) (mk : ssz.Merkleizer)
  (vs : validator.Server BeaconState) (req : ethpb.HeaderRequest) :
  exists n,
    1 <= n <= 4
    /\ validator.calls cfg mk vs req
       = firstn n
           [validator.CallSyncing;
            validator.CallOptimisticStatus;
            validator.CallGetParentState (ethpb.Slot req);
            validator.CallGetLocalPayloadFromEngine
              (fst (fst (validator.getParentState vs (ethpb.Slot req))))
              (snd (fst (validator.getParentState vs (ethpb.Slot req))))
              (ethpb.Slot req) (ethpb.ProposerIndex req)].
Proof.
  split_run vs req; cbn.
  - exists 1. split; [lia | reflexivity].
  - exists 2. split; [lia | reflexivity].
  - exists 2. split; [lia | reflexivity].
  - exists 3. split; [lia | reflexivity].
  - exists 4. split; [lia | reflexivity].
  - exists 4. split; [lia | reflexivity].
  - exists 4. split; [lia | reflexivity].
Qed.

(** X3: which collaborators are reached.  The optimistic check is invoked
    exactly when the node is not syncing; the resolver exactly when the gate
    is open; the producer exactly when the gate is open and the resolver
    returned a nil error. *)
Theorem collaborators_reached_iff {BeaconState : Type}
  (cfg : params.BeaconChainConfig) (mk : ssz.Merkleizer)
  (vs : validator.Server BeaconState) (req : ethpb.HeaderRequest) :
  (In validator.CallOptimisticStatus (validator.calls cfg mk vs req)
   <-> validator.Syncing vs = false)
  /\ (trace.resolver_invoked (validator.calls cfg mk vs req) = true
      <-> gate_open cfg vs req)
  /\ (trace.producer_invoked (validator.calls cfg mk vs req) = true
      <-> gate_open cfg vs req
          /\ snd (validator.getParentState vs (ethpb.Slot req)) = None).
Proof.
  unfold gate_open.
  split_run vs req; cbn;
    try (apply N.ltb_lt in Hfork); try (apply N.ltb_ge in Hfork);
    (split; [ | split]); split;
    try (intros [H | H]); try (intros (H1 & H2 & H3));
    try (intros ((H1 & H2 & H3) & H4)); intros; break_hyps;
    try discriminate; try reflexivity; try tauto; try lia; auto.
Qed.

(** * Further properties of [New] *)

(** X4: where an error of New comes from.  When New returns an error it
    returns no server, and the error is either the one an option returned,
    all options before it having returned nil, or, all options having
    returned nil with the router left nil, the error
    "router option not configured". *)
Theorem New_error_provenance {Router httpHandler Context CancelFunc : Type}
  (ctx0 : Context)
  (opts : list (httprest.Option Router httpHandler Context CancelFunc))
  (r : option (httprest.Server Router httpHandler Context CancelFunc))
  (e : error) :
  httprest.New ctx0 opts = (r, Some e) ->
  r = None
  /\ ((exists pre opt post g g',
          opts = pre ++ opt :: post
          /\ httprest.applyOptions pre (httprest.empty_server ctx0)
             = (g, None)
          /\ opt g = (g', Some e))
      \/ (exists g,
             httprest.applyOptions opts (httprest.empty_server ctx0)
             = (g, None)
             /\ httprest.router (httprest.cfg g) = None
             /\ e = errorString "router option not configured")).
Proof.
  unfold httprest.New.
  destruct (httprest.applyOptions opts _) as [g [e'|]] eqn:Hrun; cbn.
  - intros [= <- <-]. split; [reflexivity | left].
    destruct (applyOptions_error_inv opts _ g e' Hrun)
      as (pre & opt & post & g0 & Hopts & Hpre & Hopt).
    now exists pre, opt, post, g0, g.
  - destruct (httprest.router (httprest.cfg g)) eqn:Hrouter; cbn.
    + discriminate.
    + intros [= <- <-]. split; [reflexivity | right].
      exists g. now repeat split.
Qed.

Lemma New_error_provenance_witness :
  exists g,
    httprest.applyOptions
      [fixtures_http.timeout_option fixtures_http.thirty_seconds]
      (httprest.empty_server tt) = (g, None)
    /\ httprest.router (httprest.cfg g) = None.
Proof.
  destruct (New_error_provenance tt
              [fixtures_http.timeout_option fixtures_http.thirty_seconds]
              None (errorString "router option not configured") eq_refl)
    as [_ [(pre & opt & post & g & g' & Hopts & Hpre & Hopt)
          | (g & Hrun & Hrouter & _)]].
  - destruct pre as [|o [|o' pre]]; try discriminate Hopts.
    injection Hopts as <- _. cbn in Hpre. injection Hpre as <-.
    discriminate Hopt.
  - exists g. split; assumption.
Defined.

(** X5: option lists compose.  Running [a ++ b] is running [a] and, when
    no option of [a] returned an error, running [b] on the server [a]
    left; an error in [a] is the result and [b] is not run. *)
Theorem applyOptions_app {Router httpHandler Context CancelFunc : Type}
  (a b : list (httprest.Option Router httpHandler Context CancelFunc))
  (g : httprest.Server Router httpHandler Context CancelFunc) :
  httprest.applyOptions (a ++ b) g
  = (let (g', err) := httprest.applyOptions a g in
     if notNil err then (g', err) else httprest.applyOptions b g').
Proof.
  revert g. induction a as [|o a IH]; intros g; cbn.
  - reflexivity.
  - destruct (o g) as [g1 [e|]]; cbn; [reflexivity | apply IH].
Qed.

(** X6: what a successful New returns.  When New returns a server, every
    option returned nil, the router they left is not nil, the error is nil,
    and the server is the one the options left with only its [server] field
    set: context, configuration, cancel function and start failure are as
    the options left them. *)
Theorem New_success_inv {Router httpHandler Context CancelFunc : Type}
  (ctx0 : Context)
  (opts : list (httprest.Option Router httpHandler Context CancelFunc))
  (s : httprest.Server Router httpHandler Context CancelFunc)
  (err : option error) :
  httprest.New ctx0 opts = (Some s, err) ->
  err = None
  /\ exists g r,
       httprest.applyOptions opts (httprest.empty_server ctx0) = (g, None)
       /\ httprest.router (httprest.cfg g) = Some r
       /\ s = httprest.set_server g
                {| http.Addr := httprest.httpAddr (httprest.cfg g);
                   http.Handler := Some r;
                   http.ReadHeaderTimeout := time.Second |}.
Proof.
  unfold httprest.New.
  destruct (httprest.applyOptions opts _) as [g [e'|]] eqn:Hrun; cbn.
  - discriminate.
  - destruct (httprest.router (httprest.cfg g)) as [r|] eqn:Hrouter; cbn.
    + intros [= <- <-]. split; [reflexivity | ].
      exists g, r. rewrite Hrouter. now repeat split.
    + discriminate.
Qed.

Lemma New_success_inv_witness :
  exists s,
    httprest.New 10%N fixtures_service.opts = (Some s, None)
    /\ httprest.ctx s = 10%N
    /\ httprest.cancel s = None
    /\ httprest.startFailure s = None.
Proof.
  destruct (httprest.New 10%N fixtures_service.opts) as [[s|] err] eqn:Hnew;
    [ | discriminate Hnew ].
  destruct (New_success_inv 10%N fixtures_service.opts s err Hnew)
    as (-> & g & r & Hrun & _ & ->).
  cbn in Hrun. injection Hrun as <-.
  eexists. repeat split.
Defined.

(** * Properties of Start, Status and Stop *)

Section ServiceProperties.

Context {Router httpHandler Context CancelFunc : Type}.
Variable env : service.Env Router Context CancelFunc.

Let Server := httprest.Server Router httpHandler Context CancelFunc.

(** The context and the cancel function of the two-second timeout. *)
Let shutdownCtx (g : Server) : Context :=
  fst (service.WithTimeout env (httprest.ctx g) (2 * time.Second)%Z).
Let shutdownCancel (g : Server) : CancelFunc :=
  snd (service.WithTimeout env (httprest.ctx g) (2 * time.Second)%Z).

(** The trace of [Stop], part by part. *)
Lemma Stop_trace (g : Server) :
  fst (service.Stop env g)
  = match httprest.server g with
    | Some srv =>
        service.CallShutdown srv (shutdownCtx g)
          :: match service.Shutdown env srv (shutdownCtx g) with
             | Some e =>
                 if service.isDeadlineExceeded env e
                 then [service.LogWarn "Existing connections terminated"]
                 else [service.LogError
                         "Failed to gracefully shut down server" (Some e)]
             | None => []
             end
    | None => []
    end
    ++ match httprest.cancel g with
       | Some c => [service.CallCancel c]
       | None => []
       end
    ++ match httprest.server g with
       | Some _ => [service.CallCancel (shutdownCancel g)]
       | None => []
       end.
Proof.
  subst shutdownCtx shutdownCancel. unfold service.Stop. cbv beta.
  destruct (httprest.server g) as [srv|]; [ | reflexivity].
  destruct (service.WithTimeout env _ _) as [sctx scancel]. cbn [fst snd].
  destruct (service.Shutdown env srv sctx) as [e|]; reflexivity.
Qed.

(** X7: Stop never reports a failure.  It returns nil for every server and
    environment; an error of Shutdown is only logged, as one line: a warning
    when it is a deadline error, an error line carrying it otherwise; when
    Shutdown returns nil Stop logs nothing. *)
Theorem Stop_returns_nil_and_logs (g : Server) :
  snd (service.Stop env g) = None
  /\ forall srv,
       httprest.server g = Some srv ->
       service.logs (fst (service.Stop env g))
       = match service.Shutdown env srv (shutdownCtx g) with
         | Some e =>
             if service.isDeadlineExceeded env e
             then [service.LogWarn "Existing connections terminated"]
             else [service.LogError
                     "Failed to gracefully shut down server" (Some e)]
         | None => []
         end.
Proof.
  split.
  - unfold service.Stop.
    destruct (httprest.server g); [ | reflexivity].
    now destruct (service.WithTimeout env _ _).
  - intros srv Hsrv. rewrite Stop_trace, Hsrv. unfold service.logs.
    destruct (service.Shutdown env srv _) as [e|];
      [destruct (service.isDeadlineExceeded env e) | ];
      destruct (httprest.cancel g); reflexivity.
Qed.

(** X8: the order of Stop on a started server.  With an [http.Server] and a
    cancel function in place, Stop first calls Shutdown with the two-second
    context, then logs, then calls the cancel function of the server, and
    last the deferred cancel function of the two-second context. *)
Theorem Stop_call_order (g : Server) (srv : http.Server Router)
  (c : CancelFunc) :
  httprest.server g = Some srv ->
  httprest.cancel g = Some c ->
  fst (service.Stop env g)
  = service.CallShutdown srv (shutdownCtx g)
      :: service.logs (fst (service.Stop env g))
      ++ [service.CallCancel c; service.CallCancel (shutdownCancel g)].
Proof.
  intros Hsrv Hcancel.
  rewrite (proj2 (Stop_returns_nil_and_logs g) srv Hsrv).
  rewrite Stop_trace, Hsrv, Hcancel. reflexivity.
Qed.

(** X9: the nil guards of Stop.  Shutdown is called exactly when the server
    has an [http.Server], on it and with the two-second context; a cancel
    function is called exactly when it is the one of the server or, an
    [http.Server] being there, the one of the two-second context.  A server
    with neither is left alone. *)
Theorem Stop_calls_iff (g : Server) :
  (forall srv sctx,
      In (service.CallShutdown srv sctx) (fst (service.Stop env g))
      <-> httprest.server g = Some srv /\ sctx = shutdownCtx g)
  /\ (forall c,
        In (service.CallCancel c) (fst (service.Stop env g))
        <-> httprest.cancel g = Some c
            \/ (httprest.server g <> None /\ c = shutdownCancel g))
  /\ (httprest.server g = None -> httprest.cancel g = None ->
      fst (service.Stop env g) = []).
Proof.
  rewrite Stop_trace.
  destruct (httprest.server g) as [srv|];
    [destruct (service.Shutdown env srv _) as [e|];
       [destruct (service.isDeadlineExceeded env e) | ] | ];
    destruct (httprest.cancel g) as [c0|]; cbn;
    (split; [ | split ]);
    try (intros srv' sctx'); try (intros c'); try reflexivity;
    try discriminate;
    (split; [ intros H | intros H ]); break_hyps;
    repeat match goal with
           | H : Some _ = Some _ |- _ => injection H as ->
           | H : service.CallShutdown _ _ = service.CallShutdown _ _ |- _ =>
               injection H as -> ->
           | H : service.CallCancel _ = service.CallCancel _ |- _ =>
               injection H as ->
           end;
    subst; try discriminate; try congruence; auto 6;
    try (right; split; [discriminate | reflexivity]);
    try (right; right; left; reflexivity).
Qed.

(** X10: Stop on a server that New returned.  Whatever the options were,
    the first thing Stop does is to shut down the [http.Server] New built:
    the one with the configured address, the configured router as handler
    and a read-header timeout of one second. *)
Theorem Stop_after_New (ctx0 : Context)
  (opts : list (httprest.Option Router httpHandler Context CancelFunc))
  (s : Server) :
  httprest.New ctx0 opts = (Some s, None) ->
  exists r rest,
    httprest.router (httprest.cfg s) = Some r
    /\ fst (service.Stop env s)
       = service.CallShutdown
           {| http.Addr := httprest.httpAddr (httprest.cfg s);
              http.Handler := Some r;
              http.ReadHeaderTimeout := time.Second |}
           (shutdownCtx s)
           :: rest.
Proof.
  intros Hnew.
  destruct (New_success_inv ctx0 opts s None Hnew)
    as (_ & g & r & _ & Hrouter & ->).
  exists r. rewrite Stop_trace. cbn [httprest.set_server httprest.server
                                     httprest.cfg app].
  eexists. split; [exact Hrouter | reflexivity].
Qed.

(** X11: Start changes the cancel function and nothing else, and a Stop
    after it calls the cancel function that Start created from the context
    of the server, whatever cancel function the server had before. *)
Theorem Stop_after_Start (g : Server) :
  let started := fst (service.Start env g) in
  let cancel := snd (service.WithCancel env (httprest.ctx g)) in
  started = service.set_cancel g cancel
  /\ snd (service.Start env g) = [service.Go]
  /\ service.Status started = service.Status g
  /\ In (service.CallCancel cancel) (fst (service.Stop env started))
  /\ (forall c, In (service.CallCancel c) (fst (service.Stop env started)) ->
                c = cancel \/ c = shutdownCancel g).
Proof.
  cbv zeta. unfold service.Start.
  destruct (service.WithCancel env (httprest.ctx g)) as [ctx' cancel].
  cbn [fst snd]. repeat split.
  - apply (proj1 (proj2 (Stop_calls_iff _))). left. reflexivity.
  - intros c Hin. apply (proj1 (proj2 (Stop_calls_iff _))) in Hin.
    destruct Hin as [[= ->] | [_ ->]]; [now left | now right].
Qed.

(** X12: what the goroutine of Start leaves for Status.  On a server with
    an [http.Server] the goroutine logs, calls ListenAndServe on it and
    ends.  When ListenAndServe returns [http.ErrServerClosed] the server is
    unchanged, so Status answers as before; for any other error the
    goroutine logs it and Status returns that error from then on. *)
Theorem Status_after_goroutine (g : Server) (srv : http.Server Router)
  (e : error) :
  httprest.server g = Some srv ->
  service.ListenAndServe env srv = Some e ->
  exists g' t,
    service.Start_goroutine env g = Some (g', t)
    /\ In (service.CallListenAndServe srv) t
    /\ (service.isErrServerClosed env e = true ->
        g' = g /\ service.logs t
                  = [service.LogInfo "Starting HTTP server"
                       (httprest.httpAddr (httprest.cfg g))])
    /\ (service.isErrServerClosed env e = false ->
        service.Status g' = Some e
        /\ In (service.LogError "Failed to start HTTP server" (Some e)) t).
Proof.
  intros Hsrv Hserve. unfold service.Start_goroutine.
  rewrite Hsrv, Hserve. cbn [service.notErrServerClosed].
  destruct (service.isErrServerClosed env e); cbn [negb];
    eexists; eexists; (split; [reflexivity | ]);
    (split; [cbn; tauto | ]); split; intros H; try discriminate H.
  - split; reflexivity.
  - split; [reflexivity | cbn; tauto].
Qed.

(** X13: the goroutine of a server that New returned and Start started
    does not dereference a nil [http.Server]: it calls ListenAndServe on the
    server New built, with the configured router as handler and a
    read-header timeout of one second.  On a server that did not go through
    New it fails. *)
Theorem goroutine_after_New (ctx0 : Context)
  (opts : list (httprest.Option Router httpHandler Context CancelFunc))
  (s : Server) :
  httprest.New ctx0 opts = (Some s, None) ->
  (exists r g' t,
      httprest.router (httprest.cfg s) = Some r
      /\ service.Start_goroutine env (fst (service.Start env s))
         = Some (g', t)
      /\ In (service.CallListenAndServe
               {| http.Addr := httprest.httpAddr (httprest.cfg s);
                  http.Handler := Some r;
                  http.ReadHeaderTimeout := time.Second |}) t)
  /\ (forall g : Server,
        httprest.server g = None ->
        service.Start_goroutine env (fst (service.Start env g)) = None).
Proof.
  intros Hnew. split.
  - destruct (New_success_inv ctx0 opts s None Hnew)
      as (_ & g & r & _ & Hrouter & ->).
    exists r. unfold service.Start, service.Start_goroutine.
    destruct (service.WithCancel env _) as [ctx' cancel].
    cbn [fst httprest.server httprest.set_server service.set_cancel
         httprest.cfg].
    destruct (service.notErrServerClosed env _);
      eexists; eexists; (split; [exact Hrouter | ]);
      (split; [reflexivity | cbn; tauto]).
  - intros g Hnil. unfold service.Start, service.Start_goroutine.
    destruct (service.WithCancel env _). cbn. now rewrite Hnil.
Qed.

End ServiceProperties.

(** A Shutdown that runs into its deadline: one warning, and nil. *)
Lemma Stop_returns_nil_and_logs_witness :
  service.logs
    (fst (service.Stop
            (fixtures_service.env fixtures_service.closed
               fixtures_service.deadline)
            fixtures_service.started))
  = [service.LogWarn "Existing connections terminated"].
Proof.
  exact (proj2 (Stop_returns_nil_and_logs
                  (fixtures_service.env fixtures_service.closed
                     fixtures_service.deadline)
                  fixtures_service.started) _ eq_refl).
Defined.

(** Context 10: Start created cancel function 11, the timeout of Stop is
    context and cancel function 12. *)
Lemma Stop_call_order_witness :
  fst (service.Stop
         (fixtures_service.env fixtures_service.closed
            fixtures_service.in_use)
         fixtures_service.started)
  = [service.CallShutdown
       {| http.Addr := ":3500";
          http.Handler := Some 1%N;
          http.ReadHeaderTimeout := time.Second |} 12%N;
     service.LogError "Failed to gracefully shut down server"
       fixtures_service.in_use;
     service.CallCancel 11%N;
     service.CallCancel 12%N].
Proof.
  exact (Stop_call_order
           (fixtures_service.env fixtures_service.closed
              fixtures_service.in_use)
           fixtures_service.started _ 11%N eq_refl eq_refl).
Defined.

Lemma Stop_after_New_witness :
  exists r rest,
    httprest.router (httprest.cfg fixtures_service.built) = Some r
    /\ fst (service.Stop (fixtures_service.env None None)
              fixtures_service.built)
       = service.CallShutdown
           {| http.Addr := ":3500";
              http.Handler := Some r;
              http.ReadHeaderTimeout := 1000000000%Z |} 12%N
           :: rest.
Proof.
  exact (Stop_after_New (fixtures_service.env None None) 10%N
           fixtures_service.opts fixtures_service.built eq_refl).
Defined.

(** The port is taken: Status reports the error of ListenAndServe.  The
    server was shut down: Status stays healthy. *)
Lemma Status_after_goroutine_witness :
  (exists g' t,
      service.Start_goroutine
        (fixtures_service.env fixtures_service.in_use None)
        fixtures_service.started = Some (g', t)
      /\ service.Status g' = fixtures_service.in_use)
  /\ (exists g' t,
         service.Start_goroutine
           (fixtures_service.env fixtures_service.closed None)
           fixtures_service.started = Some (g', t)
         /\ service.Status g' = None).
Proof.
  split.
  - destruct (Status_after_goroutine
                (fixtures_service.env fixtures_service.in_use None)
                fixtures_service.started _ _ eq_refl eq_refl)
      as (g' & t & Hrun & _ & _ & Hfail).
    exists g', t. split; [exact Hrun | apply Hfail; reflexivity].
  - destruct (Status_after_goroutine
                (fixtures_service.env fixtures_service.closed None)
                fixtures_service.started _ _ eq_refl eq_refl)
      as (g' & t & Hrun & _ & Hclosed & _).
    exists g', t. split; [exact Hrun | ].
    destruct (Hclosed eq_refl) as [-> _]. reflexivity.
Defined.

Lemma goroutine_after_New_witness :
  exists g' t,
    service.Start_goroutine (fixtures_service.env fixtures_service.closed None)
      (fst (service.Start (fixtures_service.env fixtures_service.closed None)
              fixtures_service.built))
    = Some (g', t)
    /\ In (service.CallListenAndServe
             {| http.Addr := ":3500";
                http.Handler := Some 1%N;
                http.ReadHeaderTimeout := time.Second |}) t.
Proof.
  destruct (proj1 (goroutine_after_New
                     (fixtures_service.env fixtures_service.closed None)
                     10%N fixtures_service.opts fixtures_service.built
                     eq_refl))
    as (r & g' & t & Hrouter & Hrun & Hin).
  injection Hrouter as <-.
  exists g', t. split; [exact Hrun | exact Hin].
Defined.

(** * Properties of the tracing setup *)

Section TracingProperties.

Context {float64 JaegerExporter StdoutExporter : Type}.
Variable env : tracing.Env JaegerExporter StdoutExporter.
Variables serviceName processName endpoint : string.
Variable sampleFraction : float64.

Let Event := tracing.Event float64 JaegerExporter StdoutExporter.
Let opts := tracing.exporterOptions env serviceName processName endpoint.
Let emptyName : error := errorString "tracing service name cannot be empty".

(** X14: when Setup succeeds and when it registers an exporter.  Setup
    returns nil exactly when tracing is disabled, or the service name is not
    empty and the Jaeger exporter could be created.  An exporter is
    registered exactly when tracing is enabled, the name is not empty and
    NewExporter returned it with a nil error, never when tracing is
    disabled. *)
Theorem Setup_succeeds_iff (enable : bool) :
  (snd (tracing.Setup env serviceName processName endpoint sampleFraction
          enable) = None
   <-> enable = false
       \/ (serviceName <> EmptyString
           /\ snd (tracing.NewExporter env opts) = None))
  /\ (forall x,
        In (tracing.RegisterExporter x : Event)
           (fst (tracing.Setup env serviceName processName endpoint
                   sampleFraction enable))
        <-> enable = true
            /\ serviceName <> EmptyString
            /\ tracing.NewExporter env opts = (x, None)).
Proof.
  subst opts. unfold tracing.Setup.
  destruct enable; cbn [negb].
  - destruct (String.eqb_spec serviceName "") as [Heq | Hne].
    + split; [split | intros x; split].
      * discriminate.
      * intros [H | [H _]]; [discriminate H | now elim H].
      * intros [].
      * intros (_ & H & _). now elim H.
    + destruct (tracing.NewExporter env _) as [exporter [e|]]; cbn.
      * split; [split | intros x; split].
        -- discriminate.
        -- intros [H | [_ H]]; discriminate H.
        -- intros [H | [H | [H | []]]]; discriminate H.
        -- intros (_ & _ & H). discriminate H.
      * split; [split | intros x; split].
        -- intros _. right. now split.
        -- reflexivity.
        -- intros [H | [H | [H | [H | []]]]]; try discriminate H.
           injection H as ->. now repeat split.
        -- intros (_ & _ & [= ->]). right. right. right. now left.
  - split; [split | intros x; split].
    + intros _. now left.
    + reflexivity.
    + intros [H | []]. discriminate H.
    + intros (H & _). discriminate H.
Qed.

(** X15: the service name is checked only when tracing is enabled.  Setup
    does nothing at all exactly when tracing is enabled and the service name
    is empty; SetupOtel does nothing exactly when tracing is disabled or
    the name is empty.  Enabled with an empty name, both return the same
    error; disabled, both return nil whatever the name is, and Setup
    installs the never-sample configuration. *)
Theorem service_name_checked_when_enabled (enable : bool) :
  let setup := tracing.Setup env serviceName processName endpoint
                 sampleFraction enable in
  let otel := tracing.SetupOtel env serviceName processName endpoint
                sampleFraction enable in
  (fst setup = [] <-> enable = true /\ serviceName = EmptyString)
  /\ (fst otel = [] <-> enable = false \/ serviceName = EmptyString)
  /\ (enable = true -> serviceName = EmptyString ->
      snd setup = Some emptyName /\ snd otel = Some emptyName)
  /\ (enable = false ->
      setup = ([tracing.ApplyConfig tracing.neverSampleConfig], None)
      /\ snd otel = None).
Proof.
  cbv zeta. unfold tracing.Setup, tracing.SetupOtel.
  destruct enable; cbn [negb].
  - destruct (String.eqb_spec serviceName "") as [Heq | Hne].
    + split; [ | split; [ | split]].
      * split; [intros _ | intros _; reflexivity]. now split.
      * split; [intros _ | intros _; reflexivity]. now right.
      * intros _ _. split; reflexivity.
      * intros H. discriminate H.
    + destruct (tracing.NewExporter env _) as [x [e|]];
        destruct (tracing.stdoutNew env) as [y [e'|]]; cbn;
        (split; [ | split; [ | split]]);
        try (split; intros H); try (intros H1 H2);
        try discriminate; try tauto;
        try (destruct H as [H | H]; [discriminate H | now elim Hne]).
  - repeat split; try discriminate; auto.
    + intros [H _]. discriminate H.
Qed.

(** X16: a failed Setup is not undone.  When tracing is enabled, the name is
    not empty and NewExporter fails, Setup returns the error of NewExporter
    as it is and registers no exporter, but the probability sampler with
    the given fraction has already been installed as the configuration. *)
Theorem Setup_failure_keeps_config (x : option JaegerExporter) (e : error) :
  serviceName <> EmptyString ->
  tracing.NewExporter env opts = (x, Some e) ->
  let run := tracing.Setup env serviceName processName endpoint
               sampleFraction true in
  snd run = Some e
  /\ hd_error (fst run)
     = Some (tracing.ApplyConfig (tracing.probabilityConfig sampleFraction))
  /\ (forall y, ~ In (tracing.RegisterExporter y : Event) (fst run)).
Proof.
  subst opts. intros Hne Hnew. unfold tracing.Setup. cbn [negb].
  destruct (String.eqb_spec serviceName "") as [Heq | _];
    [now elim Hne | ].
  rewrite Hnew. cbn. repeat split.
  intros y [H | [H | [H | []]]]; discriminate H.
Qed.

(** X17: SetupOtel configures all or nothing.  The tracer provider is set
    exactly when tracing is enabled, the name is not empty and the exporter
    could be created, and then it is the provider built from that exporter,
    the service name, the process name and the sample fraction; the
    propagators are set under the same condition, after the provider.  When
    SetupOtel returns an error it has set neither. *)
Theorem SetupOtel_all_or_nothing (enable : bool) :
  let run := tracing.SetupOtel env serviceName processName endpoint
               sampleFraction enable in
  let ready := enable = true
               /\ serviceName <> EmptyString
               /\ snd (tracing.stdoutNew env) = None in
  let tp := tracing.tracerProvider env (fst (tracing.stdoutNew env))
              serviceName processName sampleFraction in
  (ready ->
   fst run
   = [tracing.CallStdoutNew true;
      tracing.SetTracerProvider tp;
      tracing.SetTextMapPropagator [tracing.TraceContext; tracing.Baggage];
      tracing.Log (tracing.Printf ("Tracing enabled with endpoint: "
                                   ++ endpoint))]
   /\ snd run = None)
  /\ (~ ready ->
      forall ev, In ev (fst run) -> ev = tracing.CallStdoutNew true)
  /\ (snd run <> None -> ~ ready).
Proof.
  cbv zeta. unfold tracing.SetupOtel.
  destruct enable; cbn [negb].
  - destruct (String.eqb_spec serviceName "") as [Heq | Hne].
    + split; [ | split].
      * intros (_ & H & _). now elim H.
      * intros _ ev [].
      * intros _ (_ & H & _). now elim H.
    + destruct (tracing.stdoutNew env) as [exporter [e|]]; cbn.
      * split; [ | split].
        -- intros (_ & _ & H). discriminate H.
        -- intros _ ev [H | []]. now symmetry.
        -- intros _ (_ & _ & H). discriminate H.
      * split; [ | split].
        -- intros _. split; reflexivity.
        -- intros H. elim H. now repeat split.
        -- intros H. now elim H.
  - split; [ | split].
    + intros (H & _). discriminate H.
    + intros _ ev [].
    + intros _ (H & _). discriminate H.
Qed.

(** X18: Setup and SetupOtel give the same verdict.  For the same arguments,
    when the two exporter constructors return the same error (or both nil),
    Setup and SetupOtel return the same error (or both nil). *)
Theorem Setup_SetupOtel_same_verdict (enable : bool) :
  snd (tracing.NewExporter env opts) = snd (tracing.stdoutNew env) ->
  snd (tracing.Setup env serviceName processName endpoint sampleFraction
         enable)
  = snd (tracing.SetupOtel env serviceName processName endpoint
           sampleFraction enable).
Proof.
  subst opts. unfold tracing.Setup, tracing.SetupOtel.
  destruct enable; cbn [negb]; [ | reflexivity].
  destruct (String.eqb serviceName ""); [reflexivity | ].
  destruct (tracing.NewExporter env _) as [x [e|]];
    destruct (tracing.stdoutNew env) as [y [e'|]]; cbn;
    intros H; try discriminate H; congruence.
Qed.

End TracingProperties.

(** The collector cannot be reached: the error is returned, the sampler of
    fraction 1 stays installed. *)
Lemma Setup_failure_keeps_config_witness :
  snd (tracing.Setup
         (fixtures_tracing.env fixtures_tracing.unreachable None)
         "beacon-chain" "node-1" "http://127.0.0.1:14268" 1%N true)
  = fixtures_tracing.unreachable
  /\ hd_error
       (fst (tracing.Setup
               (fixtures_tracing.env fixtures_tracing.unreachable None)
               "beacon-chain" "node-1" "http://127.0.0.1:14268" 1%N true))
     = Some (tracing.ApplyConfig (tracing.probabilityConfig 1%N)).
Proof.
  destruct (Setup_failure_keeps_config
              (fixtures_tracing.env fixtures_tracing.unreachable None)
              "beacon-chain" "node-1" "http://127.0.0.1:14268" 1%N
              None (errorString "missing endpoint for Jaeger exporter"))
    as (Herr & Hcfg & _).
  - discriminate.
  - reflexivity.
  - split; [exact Herr | exact Hcfg].
Defined.

Lemma SetupOtel_all_or_nothing_witness :
  snd (tracing.SetupOtel (fixtures_tracing.env None None)
         "beacon-chain" "node-1" "http://127.0.0.1:14268" 1%N true)
  = None.
Proof.
  apply (proj1 (SetupOtel_all_or_nothing (fixtures_tracing.env None None)
                  "beacon-chain" "node-1" "http://127.0.0.1:14268" 1%N
                  true)).
  repeat split. discriminate.
Defined.

Lemma Setup_SetupOtel_same_verdict_witness :
  snd (tracing.Setup (fixtures_tracing.env None None)
         "beacon-chain" "node-1" "http://127.0.0.1:14268" 1%N true)
  = snd (tracing.SetupOtel (fixtures_tracing.env None None)
           "beacon-chain" "node-1" "http://127.0.0.1:14268" 1%N true).
Proof.
  apply (Setup_SetupOtel_same_verdict (fixtures_tracing.env None None)
           "beacon-chain" "node-1" "http://127.0.0.1:14268" 1%N true).
  reflexivity.
Defined.

(** * What a rejection by the gate depends on, and the errors of the RPC *)

(** X19: a request the gate rejects is rejected on the sync state, the
    optimistic status and the slot alone.  Two runs that agree on these
    three, one of them with its gate closed, make the same calls and return
    the same response, whatever the proposer indices, the resolvers, the
    payload producers and the merkleization parameters are. *)
Theorem closed_gate_depends_on_gate_inputs {BeaconState : Type}
  (cfg : params.BeaconChainConfig) (mk mk' : ssz.Merkleizer)
  (vs vs' : validator.Server BeaconState) (req req' : ethpb.HeaderRequest) :
  validator.Syncing vs = validator.Syncing vs' ->
  validator.optimisticStatus vs = validator.optimisticStatus vs' ->
  ethpb.Slot req = ethpb.Slot req' ->
  ~ gate_open cfg vs req ->
  validator.run (validator.GetLocalHeader cfg mk vs req)
  = validator.run (validator.GetLocalHeader cfg mk' vs' req').
Proof.
  intros Hsync Hopt Hslot Hclosed. unfold gate_open in Hclosed.
  unfold_run. rewrite <- Hsync, <- Hopt, <- Hslot.
  destruct (validator.Syncing vs); [reflexivity | ].
  destruct (validator.optimisticStatus vs); [reflexivity | ].
  cbn [notNil].
  destruct (N.ltb_spec (slots.ToEpoch cfg (ethpb.Slot req))
              (params.EPBSForkEpoch cfg)) as [Hlt | Hge]; [reflexivity | ].
  elim Hclosed. now repeat split.
Qed.

(** The same early slot, proposers 7 and 9, two nodes with different
    resolvers and producers: the same ForkNotActive response. *)
Lemma closed_gate_depends_on_gate_inputs_witness :
  validator.run
    (validator.GetLocalHeader fixtures.cfg fixtures.mk fixtures.ready
       fixtures.early)
  = validator.run
      (validator.GetLocalHeader fixtures.cfg fixtures.mk fixtures.elsewhere
         {| ethpb.Slot := 1600%N; ethpb.ProposerIndex := 9%N |}).
Proof.
  apply closed_gate_depends_on_gate_inputs; try reflexivity.
  intros (_ & _ & Hle). apply Hle. reflexivity.
Defined.

(** X20: the errors of GetLocalHeader.  An error it returns is a status
    error of code FailedPrecondition, made when the gate is closed, or a
    status error of code Internal, made when the gate is open and the
    resolver returned a nil error, or else the very error the resolver
    returned on an open gate; no other error comes out. *)
Theorem error_is_status_or_of_resolver {BeaconState : Type}
  (cfg : params.BeaconChainConfig) (mk : ssz.Merkleizer)
  (vs : validator.Server BeaconState) (req : ethpb.HeaderRequest)
  (e : error) :
  snd (validator.response cfg mk vs req) = Some e ->
  (~ gate_open cfg vs req
   /\ exists msg, e = statusError codes.FailedPrecondition msg)
  \/ (gate_open cfg vs req
      /\ snd (validator.getParentState vs (ethpb.Slot req)) = None
      /\ exists msg, e = statusError codes.Internal msg)
  \/ (gate_open cfg vs req
      /\ snd (validator.getParentState vs (ethpb.Slot req)) = Some e).
Proof.
  unfold gate_open.
  split_run vs req; cbn; intros H; try discriminate H;
    injection H as <-;
    try (apply N.ltb_lt in Hfork); try (apply N.ltb_ge in Hfork).
  - left. split; [intros (H & _); discriminate H | eauto].
  - left. split; [intros (_ & H & _); discriminate H | eauto].
  - left. split; [intros (_ & _ & H); lia | eauto].
  - right. right. now repeat split.
  - right. left. repeat split; eauto.
  - right. left. repeat split; eauto.
Qed.

Lemma error_is_status_or_of_resolver_witness :
  gate_open fixtures.cfg fixtures.unresolved fixtures.at_fork
  /\ snd (validator.getParentState fixtures.unresolved 3200%N)
     = Some (statusError codes.NotFound "no parent state").
Proof.
  destruct (error_is_status_or_of_resolver fixtures.cfg fixtures.mk
              fixtures.unresolved fixtures.at_fork
              (statusError codes.NotFound "no parent state") eq_refl)
    as [[_ [msg Hmsg]] | [(_ & Hnil & _) | Hres]].
  - discriminate Hmsg.
  - discriminate Hnil.
  - exact Hres.
Defined.
